(** * Blogging-Website API: a shallow embedding of [api/index.js]

    The request handlers of [api/index.js] are embedded as functions from a
    request and a world (the two MongoDB collections plus the [uploads/]
    directory) to a new world and an outcome: either a response was sent, or
    a JavaScript exception escaped the handler.  The Mongoose models
    [models/User.js] and [models/Post.js] are embedded as the store
    operations the handlers call.  bcryptjs is kept abstract behind a type
    class; jsonwebtoken is modelled symbolically (a token is its payload
    together with the key that signed it).  Whether a string casts to an
    ObjectId and whether the file system lets an upload be renamed are
    answers of the runtime, kept behind a second type class. *)

From stdpp Require Import base decidable option list sorting strings gmap.
From Stdlib Require Import ZArith Ascii String.

Set Warnings "-register-all".
Local Open Scope Z_scope.
Local Open Scope string_scope.

(** ** JSON values, as written by [res.json] *)

Inductive json : Type :=
| JNull
| JBool (b : bool)
| JNum (z : Z)
| JStr (s : string)
| JArr (items : list json)
| JObj (fields : list (string * json)).

(** Does the key [k] occur as a property name at any depth of [j]? *)
Fixpoint mentions_key (k : string) (j : json) {struct j} : bool :=
  match j with
  | JArr items => existsb (mentions_key k) items
  | JObj fields =>
      existsb (fun kv => String.eqb k (fst kv) || mentions_key k (snd kv)) fields
  | _ => false
  end.

(** The property names of an object, in order ([Object.keys]). *)
Definition keys (j : json) : list string :=
  match j with
  | JObj fields => fst <$> fields
  | _ => []
  end.

(** ** Store errors and JavaScript exceptions *)

Inductive store_error : Type :=
| ValidationError (model : string) (paths : list string)  (* "Path `p` is required." *)
| DuplicateKey (index key value : string).                (* E11000 duplicate key error *)

Inductive js_error : Type :=
| ReferenceError (identifier : string)        (* "<identifier> is not defined" *)
| TypeError (message : string)
| JsonWebTokenError (message : string)
| SystemError (code path : string)           (* fs errors: ENOENT, ENAMETOOLONG, ... *)
| CastError (value path : string)             (* "Cast to ObjectId failed ..." *)
| Error (message : string)
| MongooseError (e : store_error).

Definition validator_json (path : string) : string * json :=
  (path, JObj [("name", JStr "ValidatorError");
               ("message", JStr ("Path `" +:+ path +:+ "` is required."));
               ("kind", JStr "required");
               ("path", JStr path)]).

(** [JSON.stringify] of a caught exception, as [res.status(400).json(e)]
    sends it: the own enumerable properties of the error object. *)
Definition error_json (e : js_error) : json :=
  match e with
  | MongooseError (ValidationError model paths) =>
      JObj [("errors", JObj (validator_json <$> paths));
            ("_message", JStr (model +:+ " validation failed"));
            ("name", JStr "ValidationError");
            ("message", JStr (model +:+ " validation failed"))]
  | MongooseError (DuplicateKey index key value) =>
      JObj [("index", JNum 0);
            ("code", JNum 11000);
            ("keyPattern", JObj [(key, JNum 1)]);
            ("keyValue", JObj [(key, JStr value)])]
  | JsonWebTokenError message =>
      JObj [("name", JStr "JsonWebTokenError"); ("message", JStr message)]
  | SystemError code path =>
      JObj [("code", JStr code); ("syscall", JStr "rename"); ("path", JStr path)]
  | CastError value path =>
      JObj [("stringValue", JStr (String (ascii_of_nat 34) value
                                   +:+ String (ascii_of_nat 34) ""));
            ("kind", JStr "ObjectId"); ("value", JStr value);
            ("path", JStr path); ("name", JStr "CastError")]
  | ReferenceError _ | TypeError _ | Error _ => JObj []
  end.

(** ** Documents *)

Definition ObjectId := string.
Definition Date := Z.                         (* milliseconds since the epoch *)

(** [models/User.js]: the two schema paths and the store-assigned [_id]. *)
Module User.
Record Doc : Type := mk {
  _id : ObjectId;
  username : string;
  password : string;
}.

Global Instance Doc_eq_dec : EqDecision Doc.
Proof. solve_decision. Defined.

(** [res.json(userDoc)]. *)
Definition json (u : Doc) : json :=
  JObj [("username", JStr (username u));
        ("password", JStr (password u));
        ("_id", JStr (_id u));
        ("__v", JNum 0)].
End User.

(** [models/Post.js]: the five schema paths, [_id], and the two dates added
    by [timestamps: true]. *)
Module Post.
Record Doc : Type := mk {
  _id : ObjectId;
  title : string;
  summary : string;
  content : string;
  cover : string;
  author : ObjectId;
  createdAt : Date;
  updatedAt : Date;
}.

Global Instance Doc_eq_dec : EqDecision Doc.
Proof. solve_decision. Defined.

(** A post whose [author] path holds [author_field]: the raw reference,
    or what [populate] put there. *)
Definition json_with (author_field : json) (p : Doc) : json :=
  JObj [("_id", JStr (_id p));
        ("title", JStr (title p));
        ("summary", JStr (summary p));
        ("content", JStr (content p));
        ("cover", JStr (cover p));
        ("author", author_field);
        ("createdAt", JNum (createdAt p));
        ("updatedAt", JNum (updatedAt p));
        ("__v", JNum 0)].

(** [res.json(postDoc)]. *)
Definition json (p : Doc) : json := json_with (JStr (author p)) p.
End Post.

Global Instance store_error_eq_dec : EqDecision store_error.
Proof. solve_decision. Defined.
Global Instance js_error_eq_dec : EqDecision js_error.
Proof. solve_decision. Defined.

(** ** The world: both collections and the upload directory *)

Record World : Type := mkWorld {
  users : list User.Doc;                       (* collection [users], natural order *)
  posts : list Post.Doc;                       (* collection [posts], natural order *)
  files : gset string;                        (* paths present on disk *)
}.

Definition empty_world : World := mkWorld [] [] ∅.

Definition with_users (us : list User.Doc) (w : World) : World :=
  mkWorld us (posts w) (files w).
Definition with_posts (ps : list Post.Doc) (w : World) : World :=
  mkWorld (users w) ps (files w).
Definition with_files (fs : gset string) (w : World) : World :=
  mkWorld (users w) (posts w) fs.

(** ** Handlers as computations over the world

    A handler either completes normally or is abandoned by a thrown
    exception; what it did to the world before the throw stays done. *)

Inductive completion (A : Type) : Type :=
| Normal (a : A)
| Throw (e : js_error).
Arguments Normal {A} a.
Arguments Throw {A} e.

Definition Js (A : Type) : Type := World → World * completion A.

Definition ret {A} (a : A) : Js A := λ w, (w, Normal a).
Definition throw {A} (e : js_error) : Js A := λ w, (w, Throw e).
Definition bind {A B} (m : Js A) (k : A → Js B) : Js B :=
  λ w, match m w with
       | (w', Normal a) => k a w'
       | (w', Throw e) => (w', Throw e)
       end.
Definition try_catch {A} (m : Js A) (handler : js_error → Js A) : Js A :=
  λ w, match m w with
       | (w', Normal a) => (w', Normal a)
       | (w', Throw e) => handler e w'
       end.
Definition get_world : Js World := λ w, (w, Normal w).
Definition put_world (w' : World) : Js unit := λ _, (w', Normal tt).

Declare Scope js_scope.
Delimit Scope js_scope with js.
Notation "'let!' x ':=' m 'in' k" := (bind m (λ x, k))
  (at level 10, x name, m at level 100, k at level 200,
   format "'[v' 'let!'  x  ':='  m  'in' '/' k ']'") : js_scope.
Notation "m ';;' k" := (bind m (λ _, k))
  (at level 100, k at level 200, right associativity) : js_scope.
Local Open Scope js_scope.

(** ** [String.prototype.split] on a one-character separator *)

Fixpoint split (sep : ascii) (s : string) : list string :=
  match s with
  | EmptyString => [""]
  | String c s' =>
      if Ascii.eqb c sep then "" :: split sep s'
      else match split sep s' with
           | piece :: pieces => String c piece :: pieces
           | [] => [String c ""]
           end
  end.

(** [parts[parts.length - 1]]; an out-of-range index reads [undefined],
    which string concatenation renders as the text "undefined". *)
Definition last_part (parts : list string) : string :=
  match last parts with
  | Some piece => piece
  | None => "undefined"
  end.

(** [path + '.' + ext] of both post handlers. *)
Definition renamed_path (originalname path : string) : string :=
  let parts := split "." originalname in
  let ext := last_part parts in
  path +:+ "." +:+ ext.

(** Does the character [c] occur in [s]? *)
Fixpoint occurs (c : ascii) (s : string) : bool :=
  match s with
  | EmptyString => false
  | String c' s' => Ascii.eqb c' c || occurs c s'
  end.

(** ** What lies outside the repository

    Two answers decide how a request ends and are given by the libraries
    and the operating system, not by the program: whether Mongoose can cast
    a string to an ObjectId, and whether the file system lets a file be
    renamed onto a path. *)

Definition is_lower_hex (c : ascii) : bool :=
  let n := nat_of_ascii c in
  ((48 <=? n) && (n <=? 57) || (97 <=? n) && (n <=? 102))%nat.

Fixpoint all_chars (test : ascii → bool) (s : string) : bool :=
  match s with
  | EmptyString => true
  | String c s' => test c && all_chars test s'
  end.

(** The text of an ObjectId: 24 hexadecimal digits, in lower case. *)
Definition is_ObjectId (s : string) : bool :=
  (String.length s =? 24)%nat && all_chars is_lower_hex s.

(** The last component of a path, and the longest one a file system
    stores. *)
Definition basename (path : string) : string := last_part (split "/" path).
Definition NAME_MAX : nat := 255.

Class Runtime : Type := {
  (** Mongoose's cast of a string to an ObjectId; [None] is a CastError. *)
  castObjectId : string → option ObjectId;
  (** The error code with which the file system refuses a rename onto a
      path whose source exists; [None] when the rename goes through. *)
  rename_refused : string → option string;
  castObjectId_ObjectId :
    ∀ s, is_ObjectId s = true → castObjectId s = Some s;
  castObjectId_short :
    ∀ s, (String.length s < 12)%nat → castObjectId s = None;
  rename_refused_long :
    ∀ path, (NAME_MAX < String.length (basename path))%nat →
            rename_refused path ≠ None;
}.

(** ** The store operations of the two Mongoose models *)

(** [required: true] on a String path rejects the empty string. *)
Definition required (path value : string) : list string :=
  if decide (value = "") then [path] else [].

(** [User.create({username, password})].  [UserSchema] declares, for
    [username], [required: true], [min: 4] and [unique: true], and for
    [password], [required: true].  On a String path Mongoose knows the
    validators [required], [minlength], [maxlength], [enum] and [match]; [min]
    is a validator of Number and Date paths and adds nothing here.
    [unique: true] builds a unique index, which the database enforces on
    insert, like the one on [_id]. *)
Definition User_create (new_id : ObjectId) (name hash : string) : Js User.Doc :=
  let! w := get_world in
  match (required "username" name ++ required "password" hash)%list with
  | (_ :: _) as failed => throw (MongooseError (ValidationError "User" failed))
  | [] =>
      if decide (new_id ∈ User._id <$> users w) then
        throw (MongooseError (DuplicateKey "_id_" "_id" new_id))
      else if decide (name ∈ User.username <$> users w) then
        throw (MongooseError (DuplicateKey "username_1" "username" name))
      else
        let userDoc := User.mk new_id name hash in
        put_world (with_users (users w ++ [userDoc])%list w);;
        ret userDoc
  end.

(** [User.findOne({username})]: the first match in natural order, or null. *)
Definition stored_user (name : string) (us : list User.Doc) : option User.Doc :=
  find (λ u, bool_decide (User.username u = name)) us.

Definition User_findOne (name : string) : Js (option User.Doc) :=
  let! w := get_world in
  ret (stored_user name (users w)).

Definition User_findById (id : ObjectId) (us : list User.Doc) : option User.Doc :=
  find (λ u, bool_decide (User._id u = id)) us.

(** [Post.create({title, summary, content, cover, author})]: no path of
    [PostSchema] carries a validator, but [author] is an ObjectId path and
    the value given is cast, a failed cast being a validation error;
    [timestamps: true] stamps both dates. *)
Definition Post_create `{Runtime} (new_id : ObjectId) (now : Date)
    (title summary content cover : string) (author : string) : Js Post.Doc :=
  let! w := get_world in
  match castObjectId author with
  | None => throw (MongooseError (ValidationError "Post" ["author"]))
  | Some author =>
      if decide (new_id ∈ Post._id <$> posts w) then
        throw (MongooseError (DuplicateKey "_id_" "_id" new_id))
      else
        let postDoc := Post.mk new_id title summary content cover author now now in
        put_world (with_posts (posts w ++ [postDoc])%list w);;
        ret postDoc
  end.

(** [Post.findById(id)]: the id is cast to an ObjectId, a CastError if
    that fails, and looked up. *)
Definition stored_post (id : ObjectId) (ps : list Post.Doc) : option Post.Doc :=
  find (λ p, bool_decide (Post._id p = id)) ps.

Definition Post_findById `{Runtime} (id : string) : Js (option Post.Doc) :=
  match castObjectId id with
  | None => throw (CastError id "_id")
  | Some id =>
      let! w := get_world in
      ret (stored_post id (posts w))
  end.

(** [postDoc.update({title, summary, content, cover})]: an [updateOne] on the
    document's [_id]; the in-memory [postDoc] is left as it was loaded. *)
Fixpoint updateOne (id : ObjectId) (change : Post.Doc → Post.Doc)
    (ps : list Post.Doc) : list Post.Doc :=
  match ps with
  | [] => []
  | p :: ps' =>
      if decide (Post._id p = id) then change p :: ps'
      else p :: updateOne id change ps'
  end.

Definition set_fields (now : Date) (title summary content cover : string)
    (p : Post.Doc) : Post.Doc :=
  Post.mk (Post._id p) title summary content cover (Post.author p)
    (Post.createdAt p) now.

Definition postDoc_update (postDoc : Post.Doc) (now : Date)
    (title summary content cover : string) : Js unit :=
  let! w := get_world in
  put_world
    (with_posts
       (updateOne (Post._id postDoc) (set_fields now title summary content cover)
          (posts w)) w).

(** [.populate('author', ['username'])]: the referenced user restricted to
    the selected path, together with [_id], which a selection keeps unless
    it is excluded by name; null when the reference dangles. *)
Definition populate_author (us : list User.Doc) (p : Post.Doc) : json :=
  match User_findById (Post.author p) us with
  | Some u => JObj [("_id", JStr (User._id u)); ("username", JStr (User.username u))]
  | None => JNull
  end.

Definition populated_json (us : list User.Doc) (p : Post.Doc) : json :=
  Post.json_with (populate_author us p) p.

(** [.sort({createdAt: -1})]: newest first. *)
Definition newest_first (p q : Post.Doc) : Prop :=
  (Post.createdAt q ≤ Post.createdAt p)%Z.

Global Instance newest_first_dec : RelDecision newest_first.
Proof. intros p q. unfold newest_first. apply _. Defined.

Global Instance newest_first_trans : Transitive newest_first.
Proof. intros p q r. unfold newest_first. lia. Qed.

Global Instance newest_first_total : Total newest_first.
Proof. intros p q. unfold newest_first. lia. Qed.

Definition sort_createdAt_desc (ps : list Post.Doc) : list Post.Doc :=
  merge_sort newest_first ps.

(** [.limit(n)]. *)
Definition limit (n : nat) (ps : list Post.Doc) : list Post.Doc := take n ps.

(** ** The upload directory *)

(** What the multipart body carries for the field [file], and the name
    multer draws for it. *)
Record FilePart : Type := mkPart {
  part_originalname : string;
  part_filename : string;                     (* multer's random hex name *)
}.

(** [req.file], reduced to the two properties the handlers read. *)
Record UploadedFile : Type := mkFile {
  originalname : string;
  path : string;
}.

(** [multer({dest: 'uploads/'}).single('file')]: stores the part, if there is
    one, and sets [req.file]. *)
Definition uploadMiddleware_single (part : option FilePart)
  : Js (option UploadedFile) :=
  match part with
  | None => ret None
  | Some f =>
      let stored := "uploads/" +:+ part_filename f in
      let! w := get_world in
      put_world (with_files ({[stored]} ∪ files w) w);;
      ret (Some (mkFile (part_originalname f) stored))
  end.

(** [fs.renameSync(oldPath, newPath)]: throws when the source is missing
    or the file system refuses the new path, and moves the file otherwise. *)
Definition fs_renameSync `{Runtime} (oldPath newPath : string) : Js unit :=
  let! w := get_world in
  if decide (oldPath ∈ files w) then
    match rename_refused newPath with
    | Some code => throw (SystemError code newPath)
    | None => put_world (with_files ({[newPath]} ∪ files w ∖ {[oldPath]}) w)
    end
  else throw (SystemError "ENOENT" oldPath).

(** ** bcryptjs and jsonwebtoken *)

(** The two bcryptjs calls of the program and what they promise. *)
Class Bcrypt : Type := {
  hashSync : string → string → string;        (* password, salt ↦ hash *)
  compareSync : string → string → bool;       (* password, hash *)
  compareSync_hashSync : ∀ pw salt, compareSync pw (hashSync pw salt) = true;
  hashSync_nonempty : ∀ pw salt, hashSync pw salt ≠ "";
}.

(** The payload of a token of this program: [{username, id}] and the [iat]
    stamp that [jwt.sign] adds. *)
Record TokenInfo : Type := mkInfo {
  info_username : string;
  info_id : ObjectId;
  iat : Z;
}.

(** The value of a cookie: a token signed with some key, or any other text. *)
Inductive Cookie : Type :=
| Signed (info : TokenInfo) (key : string)
| Text (text : string).

Definition info_json (info : TokenInfo) : json :=
  JObj [("username", JStr (info_username info));
        ("id", JStr (info_id info));
        ("iat", JNum (iat info))].

(** [jwt.sign({username, id}, key, {}, callback)]. *)
Definition jwt_sign (name : string) (id : ObjectId) (key : string) (now : Date)
  : Js Cookie :=
  if decide (key = "") then throw (Error "secretOrPrivateKey must have a value")
  else ret (Signed (mkInfo name id (now / 1000)) key).

(** [jwt.verify(token, key, {}, callback)], followed by the callback's
    [if (err) throw err]. *)
Definition jwt_verify (token : option Cookie) (key : string) : Js TokenInfo :=
  match token with
  | None | Some (Text "") => throw (JsonWebTokenError "jwt must be provided")
  | Some (Text _) => throw (JsonWebTokenError "jwt malformed")
  | Some (Signed info signer) =>
      if decide (key = "") then
        throw (JsonWebTokenError "secret or public key must be provided")
      else if decide (signer = key) then ret info
      else throw (JsonWebTokenError "invalid signature")
  end.

(** [JSON.stringify] of an ObjectId or of its string form: the hexadecimal
    text between double quotes. *)
Definition quote : string := String (ascii_of_nat 34) "".
Definition JSON_stringify (id : ObjectId) : string := quote +:+ id +:+ quote.

(** ** Responses *)

Record Response : Type := mkResponse {
  status : Z;
  cookie : option (string * Cookie);           (* [res.cookie(name, value)] *)
  sent : json;                                 (* [res.json(value)] *)
}.

Definition res_json (value : json) : Response := mkResponse 200 None value.
Definition res_status_json (code : Z) (value : json) : Response :=
  mkResponse code None value.
Definition res_cookie_json (name : string) (value : Cookie) (body : json)
  : Response := mkResponse 200 (Some (name, value)) body.

(** ** The route handlers of [index.js] *)

Section Handlers.
Context `{Bcrypt}.
Context `{Runtime}.

(** The string constants in scope of the handlers, by identifier. *)
Variable scope : gmap string string.

(** Reading an identifier: its value, or a ReferenceError. *)
Definition identifier (name : string) : Js string :=
  match scope !! name with
  | Some value => ret value
  | None => throw (ReferenceError name)
  end.

(** [app.post('/register', ...)]; [salt] is what [genSaltSync(10)] drew and
    [new_id] the ObjectId generated for the document. *)
Definition post_register (username password salt : string)
    (new_id : ObjectId) : Js Response :=
  try_catch
    (let! userDoc := User_create new_id username (hashSync password salt) in
     ret (res_json (User.json userDoc)))
    (λ e, ret (res_status_json 400 (error_json e))).

(** [app.post('/login', ...)]. *)
Definition post_login (username password : string) (now : Date)
  : Js Response :=
  let! userDoc := User_findOne username in
  let! stored :=
    match userDoc with
    | Some u => ret u
    | None => throw (TypeError "Cannot read properties of null (reading 'password')")
    end in
  let passOk := compareSync password (User.password stored) in
  if passOk then
    let! secret := identifier "secret" in
    let! token := jwt_sign username (User._id stored) secret now in
    ret (res_cookie_json "token" token
           (JObj [("id", JStr (User._id stored)); ("username", JStr username)]))
  else ret (res_status_json 400 (JStr "wrong credentials")).

(** [app.get('/profile', ...)]. *)
Definition get_profile (token : option Cookie) : Js Response :=
  let! secret := identifier "secret" in
  let! info := jwt_verify token secret in
  ret (res_json (info_json info)).

(** [app.post('/logout', ...)]. *)
Definition post_logout : Js Response :=
  ret (res_cookie_json "token" (Text "") (JStr "ok")).

(** [app.post('/post', uploadMiddleware.single('file'), ...)], from the
    point where [req.file] has been set. *)
Definition post_post (file : option UploadedFile) (token : option Cookie)
    (title summary content : string) (new_id : ObjectId) (now : Date)
  : Js Response :=
  let! f :=
    match file with
    | Some f => ret f
    | None => throw (TypeError "Cannot destructure property 'originalname' of 'req.file' as it is undefined.")
    end in
  let newPath := renamed_path (originalname f) (path f) in
  fs_renameSync (path f) newPath;;
  let! secret := identifier "secret" in
  let! info := jwt_verify token secret in
  let! postDoc :=
    Post_create new_id now title summary content newPath (info_id info) in
  ret (res_json (Post.json postDoc)).

(** [app.put('/post', uploadMiddleware.single('file'), ...)], from the
    point where [req.file] has been set.  [newPath] is null without a
    file, and a renamed path is never the empty string, so
    [newPath ? newPath : postDoc.cover] tests for the file. *)
Definition put_post (file : option UploadedFile) (token : option Cookie)
    (id : string) (title summary content : string) (now : Date)
  : Js Response :=
  let! newPath :=
    match file with
    | Some f =>
        let newPath := renamed_path (originalname f) (path f) in
        fs_renameSync (path f) newPath;;
        ret (Some newPath)
    | None => ret None
    end in
  let! secret := identifier "secret" in
  let! info := jwt_verify token secret in
  let! found := Post_findById id in
  let! postDoc :=
    match found with
    | Some p => ret p
    | None => throw (TypeError "Cannot read properties of null (reading 'author')")
    end in
  let isAuthor :=
    String.eqb (JSON_stringify (Post.author postDoc))
      (JSON_stringify (info_id info)) in
  if negb isAuthor then
    ret (res_status_json 400 (JStr "you are not the author"))
  else
    postDoc_update postDoc now title summary content
      (match newPath with
       | Some renamed => renamed
       | None => Post.cover postDoc
       end);;
    ret (res_json (Post.json postDoc)).

(** [Post.find().populate('author', ['username']).sort({createdAt: -1})
    .limit(20)]: the documents the query selects, before population. *)
Definition listing (w : World) : list Post.Doc :=
  limit 20 (sort_createdAt_desc (posts w)).

(** [app.get('/post', ...)]. *)
Definition get_post : Js Response :=
  let! w := get_world in
  ret (res_json (JArr (populated_json (users w) <$> listing w))).

(** [app.get('/post/:id', ...)]. *)
Definition get_post_id (id : string) : Js Response :=
  let! found := Post_findById id in
  let! w := get_world in
  ret (res_json
         (match found with
          | Some postDoc => populated_json (users w) postDoc
          | None => JNull
          end)).

(** ** Requests and routing *)

(** A request as a route sees it, together with what the environment draws
    while it is served: the salt and ObjectId generated, the clock. *)
Inductive Request : Type :=
| POST_register (username password salt : string) (new_id : ObjectId)
| POST_login (username password : string) (now : Date)
| GET_profile (token : option Cookie)
| POST_logout
| POST_post (part : option FilePart) (token : option Cookie)
    (title summary content : string) (new_id : ObjectId) (now : Date)
| PUT_post (part : option FilePart) (token : option Cookie)
    (id : string) (title summary content : string) (now : Date)
| GET_post
| GET_post_id (id : string).

Definition app (req : Request) : Js Response :=
  match req with
  | POST_register username password salt new_id =>
      post_register username password salt new_id
  | POST_login username password now => post_login username password now
  | GET_profile token => get_profile token
  | POST_logout => post_logout
  | POST_post part token title summary content new_id now =>
      let! file := uploadMiddleware_single part in
      post_post file token title summary content new_id now
  | PUT_post part token id title summary content now =>
      let! file := uploadMiddleware_single part in
      put_post file token id title summary content now
  | GET_post => get_post
  | GET_post_id id => get_post_id id
  end.

End Handlers.

(** The string constants that [index.js] declares at top level.  There is
    none: the declaration of [secret] on line 16 is a comment. *)
Definition module_scope : gmap string string := ∅.

(** The scope the commented-out line would have given. *)
Definition scope_with_secret : gmap string string :=
  {["secret" := "Secret-Service"]}.

(** [multer]'s path for a part, [dest] followed by the drawn name, and the
    path the post handlers rename it to. *)
Definition stored_path (fp : FilePart) : string := "uploads/" +:+ part_filename fp.
Definition renamed (fp : FilePart) : string :=
  renamed_path (part_originalname fp) (stored_path fp).

(** Does the file system let the upload of a request, if it has one, be
    renamed? *)
Definition rename_goes_through `{Runtime} (part : option FilePart) : bool :=
  match part with
  | None => true
  | Some fp =>
      match rename_refused (renamed fp) with
      | None => true
      | Some _ => false
      end
  end.

(** Does serving [req] in [w] get as far as signing or verifying a token?
    Login does on a password match, the profile route always, post creation
    once [req.file] has been read and the upload renamed, post update once
    the upload, if there is one, has been renamed. *)
Definition signs_or_verifies `{Bcrypt} `{Runtime} (req : Request) (w : World)
  : bool :=
  match req with
  | POST_login username password _ =>
      match stored_user username (users w) with
      | Some u => compareSync password (User.password u)
      | None => false
      end
  | GET_profile _ => true
  | POST_post part _ _ _ _ _ _ =>
      bool_decide (is_Some part) && rename_goes_through part
  | PUT_post part _ _ _ _ _ _ => rename_goes_through part
  | _ => false
  end.

(** The worlds the program can bring about from empty collections. *)
Inductive reachable `{Bcrypt} `{Runtime} : World → Prop :=
| reachable_empty : reachable empty_world
| reachable_step w req :
    reachable w → reachable (app module_scope req w).1.

(** ** Store invariants and the shape of a listing *)

Definition usernames (w : World) : list string := User.username <$> users w.

(** The unique index on [username]. *)
Definition unique_usernames (w : World) : Prop := NoDup (usernames w).

(** How many stored users carry [name]. *)
Definition count_username (name : string) (w : World) : nat :=
  List.length (filter (λ u, User.username u = name) (users w)).

Definition strictly_newer (p q : Post.Doc) : Prop :=
  (Post.createdAt q < Post.createdAt p)%Z.

Global Instance strictly_newer_dec : RelDecision strictly_newer.
Proof. intros p q. unfold strictly_newer. apply _. Defined.

(** A bcrypt stand-in for running the handlers on concrete requests: the
    hash is the password behind a marker.  It satisfies the two laws, and
    nothing else about bcrypt is used. *)
Definition plain_hash (pw salt : string) : string := "$" +:+ pw.
Definition plain_compare (pw hash : string) : bool :=
  String.eqb hash ("$" +:+ pw).

Program Instance Bcrypt_plain : Bcrypt :=
  {| hashSync := plain_hash; compareSync := plain_compare |}.
Next Obligation. intros pw salt. unfold plain_compare, plain_hash. apply String.eqb_refl. Qed.
Next Obligation. intros pw salt. unfold plain_hash. discriminate. Qed.

(** A runtime for running the handlers on concrete requests: the cast
    accepts exactly the 24-digit hexadecimal texts and lowers their letters,
    and the file system refuses exactly the names longer than [NAME_MAX]. *)
Definition is_upper_hex (c : ascii) : bool :=
  let n := nat_of_ascii c in ((65 <=? n) && (n <=? 70))%nat.
Definition lower_hex (c : ascii) : ascii :=
  if is_upper_hex c then ascii_of_nat (nat_of_ascii c + 32) else c.
Fixpoint map_chars (f : ascii → ascii) (s : string) : string :=
  match s with
  | EmptyString => EmptyString
  | String c s' => String (f c) (map_chars f s')
  end.
Definition cast_hex (s : string) : option ObjectId :=
  if (String.length s =? 24)%nat
     && all_chars (λ c, is_lower_hex c || is_upper_hex c) s
  then Some (map_chars lower_hex s) else None.
Definition refuse_long (path : string) : option string :=
  if (NAME_MAX <? String.length (basename path))%nat
  then Some "ENAMETOOLONG" else None.

Lemma cast_hex_ObjectId s : is_ObjectId s = true → cast_hex s = Some s.
Proof.
  unfold is_ObjectId, cast_hex. intros [Hlen Hhex]%andb_prop. rewrite Hlen. simpl.
  clear Hlen. assert (all_chars (λ c, is_lower_hex c || is_upper_hex c) s = true
                      ∧ map_chars lower_hex s = s) as [-> ->]; [|done].
  induction s as [|c s IH]; simpl in *; [done|].
  apply andb_prop in Hhex as [Hc Hs]. destruct (IH Hs) as [-> ->].
  rewrite Hc. simpl. split; [done|]. f_equal.
  unfold lower_hex, is_upper_hex, is_lower_hex in *.
  destruct (nat_of_ascii c <=? 70)%nat eqn:H70; [|by rewrite andb_false_r].
  destruct (65 <=? nat_of_ascii c)%nat eqn:H65; [|done].
  apply Nat.leb_le in H70, H65. exfalso.
  apply orb_prop in Hc as [[_ H57]%andb_prop | [H97 _]%andb_prop].
  - apply Nat.leb_le in H57. lia.
  - apply Nat.leb_le in H97. lia.
Qed.

Global Program Instance Runtime_hex : Runtime :=
  {| castObjectId := cast_hex; rename_refused := refuse_long |}.
Next Obligation. apply cast_hex_ObjectId. Qed.
Next Obligation.
  intros s Hshort. unfold cast_hex.
  destruct (String.length s =? 24)%nat eqn:Hlen; [|done].
  apply Nat.eqb_eq in Hlen. lia.
Qed.
Next Obligation.
  intros path Hlong. unfold refuse_long.
  apply Nat.ltb_lt in Hlong. by rewrite Hlong.
Qed.

(** What the store answers to a registration it refuses. *)
Definition refusal (hash : string) (new_id : ObjectId) (name : string)
    (w : World) : store_error :=
  match (required "username" name ++ required "password" hash)%list with
  | (_ :: _) as failed => ValidationError "User" failed
  | [] =>
      if decide (new_id ∈ User._id <$> users w) then DuplicateKey "_id_" "_id" new_id
      else DuplicateKey "username_1" "username" name
  end.

(** The cover the update writes: the renamed upload, or the old cover. *)
Definition cover_after (part : option FilePart) (p : Post.Doc) : string :=
  match part with
  | Some fp =>
      renamed_path (part_originalname fp) ("uploads/" +:+ part_filename fp)
  | None => Post.cover p
  end.

(** ** A small blog to run requests on *)

Definition alice : User.Doc := User.mk "64a1f0c2b3d4e5f6a7b8c9d0" "alice" "$pw".
Definition bob : User.Doc := User.mk "64b2f0c2b3d4e5f6a7b8c9d1" "bob" "$hunter2".

Definition alice_post : Post.Doc :=
  Post.mk "70c1e4a2b3d4e5f6a7b8c9e0" "Hello" "First post" "<p>Hi</p>" "uploads/9f3a.png" "64a1f0c2b3d4e5f6a7b8c9d0"
    1000 1000.

Definition blog : World :=
  mkWorld [alice; bob] [alice_post] {["uploads/9f3a.png"]}.

Definition bob_post : Post.Doc :=
  Post.mk "70c2e4a2b3d4e5f6a7b8c9e1" "Re: Hello" "Second post" "<p>Yo</p>" "uploads/77aa.jpg" "64b2f0c2b3d4e5f6a7b8c9d1"
    1000 1000.

(** Two posts created within the same millisecond. *)
Definition twins : World := mkWorld [alice; bob] [alice_post; bob_post] ∅.


(** A token for [u] as the program would have signed it with [key]. *)
Definition token_for (u : User.Doc) (key : string) : option Cookie :=
  Some (Signed (mkInfo (User.username u) (User._id u) 1) key).

(** ** Classifying requests *)

(** The routes whose handlers hold no write to a collection or to disk. *)
Definition read_only (req : Request) : bool :=
  match req with
  | POST_login _ _ _ | GET_profile _ | POST_logout | GET_post | GET_post_id _ => true
  | _ => false
  end.

(** [req.cookies.token] as the post and profile routes read it. *)
Definition request_token (req : Request) : option Cookie :=
  match req with
  | GET_profile token => token
  | POST_post _ token _ _ _ _ _ => token
  | PUT_post _ token _ _ _ _ _ => token
  | _ => None
  end.

(** What no handler writes once a post exists. *)
Definition post_identity (p : Post.Doc) : ObjectId * ObjectId * Date :=
  (Post._id p, Post.author p, Post.createdAt p).


(** * Properties *)

(** Unfolds a handler down to the world it is run on. *)
Ltac js_unfold :=
  unfold app, post_register, post_login, get_profile, post_logout, post_post,
    put_post, get_post, get_post_id, uploadMiddleware_single, fs_renameSync,
    identifier, User_create, User_findOne, Post_create, Post_findById,
    postDoc_update, jwt_sign, jwt_verify, try_catch, bind, ret, throw,
    get_world, put_world in *.

Lemma upload_is_there (x : string) (fs : gset string) : x ∈ {[x]} ∪ fs.
Proof. set_solver. Qed.

(** One step of a case analysis on how a handler runs, in the order in
    which the handler does things. *)
Ltac js_case :=
  match goal with
  | |- context [decide (?x ∈ {[?x]} ∪ ?fs)] =>
      rewrite (decide_True (P:=x ∈ {[x]} ∪ fs)) by apply upload_is_there
  | |- context [rename_refused ?p] => destruct (rename_refused p) eqn:?
  | |- context [(required ?a ?b ++ required ?c ?d)%list] =>
      destruct (required a b ++ required c d)%list eqn:?
  | |- context [stored_user ?i ?us] => destruct (stored_user i us) eqn:?
  | |- context [compareSync ?a ?b] => destruct (compareSync a b) eqn:?
  | |- context [?scope !! "secret"] => destruct (scope !! "secret") eqn:?
  | |- context [match ?t with Some _ => _ | None => _ end] => is_var t; destruct t
  | |- context [match ?t with Signed _ _ => _ | Text _ => _ end] => is_var t; destruct t
  | |- context [match ?t with EmptyString => _ | String _ _ => _ end] => is_var t; destruct t
  | |- context [decide (?a = ?b)] => destruct (decide (a = b))
  | |- context [decide (?a ∈ ?b)] => destruct (decide (a ∈ b))
  | |- context [castObjectId ?i] => destruct (castObjectId i) eqn:?
  | |- context [stored_post ?i ?ps] => destruct (stored_post i ps) eqn:?
  | |- context [negb ?b] => destruct b eqn:?
  end; simpl.

Ltac js_cases := js_unfold; simpl; repeat js_case.

(** ** The scope of the handlers *)

Lemma secret_not_in_scope : module_scope !! "secret" = None.
Proof. reflexivity. Qed.

Lemma identifier_secret_throws w :
  identifier module_scope "secret" w = (w, Throw (ReferenceError "secret")).
Proof. reflexivity. Qed.

Lemma identifier_defined scope name value w :
  scope !! name = Some value → identifier scope name w = (w, Normal value).
Proof. intros Hs. unfold identifier. by rewrite Hs. Qed.

(** ** The upload directory *)

Lemma uploaded_file_is_stored part f w w' :
  uploadMiddleware_single part w = (w', Normal (Some f)) →
  path f ∈ files w' ∧ users w' = users w ∧ posts w' = posts w.
Proof.
  destruct part as [fp|]; js_unfold; intros [= <- <-]; simpl.
  split; [set_solver | done].
Qed.

Lemma rename_after_upload `{Runtime} fp w :
  rename_refused (renamed fp) = None →
  bind (uploadMiddleware_single (Some fp))
       (λ file, match file with
                | Some f => fs_renameSync (path f) (renamed_path (originalname f) (path f))
                | None => ret tt
                end) w
  = (with_files ({[renamed fp]} ∪ ({[stored_path fp]} ∪ files w) ∖ {[stored_path fp]}) w,
     Normal tt).
Proof.
  intros Hgo. js_unfold. simpl. fold (stored_path fp). fold (renamed fp).
  rewrite decide_True by set_solver. by rewrite Hgo.
Qed.

(** ** Lookups *)

Lemma stored_post_absent id ps :
  id ∉ Post._id <$> ps → stored_post id ps = None.
Proof.
  unfold stored_post. induction ps as [|p ps IH]; simpl; [done|].
  rewrite not_elem_of_cons. intros [Hne Hnin].
  rewrite bool_decide_eq_false_2 by congruence. auto.
Qed.

Lemma stored_post_Some id ps p :
  stored_post id ps = Some p → p ∈ ps ∧ Post._id p = id.
Proof.
  unfold stored_post. intros Hf. apply find_some in Hf as [Hin Hb].
  apply bool_decide_eq_true in Hb. split; [by apply list_elem_of_In | done].
Qed.

Lemma stored_user_Some name us u :
  stored_user name us = Some u → u ∈ us ∧ User.username u = name.
Proof.
  unfold stored_user. intros Hf. apply find_some in Hf as [Hin Hb].
  apply bool_decide_eq_true in Hb. split; [by apply list_elem_of_In | done].
Qed.

Lemma stored_user_present name us :
  name ∈ User.username <$> us → is_Some (stored_user name us).
Proof.
  unfold stored_user. induction us as [|u us IH]; simpl.
  - intros Hin. by apply elem_of_nil in Hin.
  - rewrite elem_of_cons. intros [Heq | Hin].
    + rewrite bool_decide_eq_true_2 by done. eauto.
    + destruct (bool_decide _); eauto.
Qed.

(** ** Requests that reach the token service *)




(** A post creation without a file never gets that far: destructuring
    [req.file] throws first. *)
Lemma create_post_without_file_faults `{Bcrypt} `{Runtime} scope token t s c new_id now w :
  app scope (POST_post None token t s c new_id now) w
  = (w, Throw (TypeError "Cannot destructure property 'originalname' of 'req.file' as it is undefined.")).
Proof. reflexivity. Qed.


(** Conversely, a [ReferenceError] only ever comes from such a request. *)
Lemma reference_error_only_from_token_requests `{Bcrypt} `{Runtime} req w name :
  (app module_scope req w).2 = Throw (ReferenceError name) →
  signs_or_verifies req w = true ∧ name = "secret".
Proof.
  destruct req as [username pw salt i | username pw now | token | | part token t s c i now
                   | part token id t s c now | | ]; simpl.
  - js_unfold. destruct (_ ++ _)%list; simpl; [|done].
    repeat (case_decide; simpl; try done).
  - js_unfold. destruct (stored_user username (users w)) as [u|]; simpl; [|done].
    destruct (compareSync _ _); simpl; [|done]. by intros [= <-].
  - js_unfold. simpl. by intros [= <-].
  - done.
  - destruct part as [fp|]; js_unfold; simpl; [|done].
    unfold renamed, stored_path. rewrite decide_True by set_solver.
    destruct (rename_refused _); simpl; [done|]. by intros [= <-].
  - destruct part as [fp|]; js_unfold; simpl.
    + unfold renamed, stored_path. rewrite decide_True by set_solver.
      destruct (rename_refused _); simpl; [done|]. by intros [= <-].
    + by intros [= <-].
  - done.
  - js_unfold. destruct (castObjectId id); simpl; [|done]. by destruct (stored_post _ _).
Qed.

(** ** Login *)

(** C5. A login whose username the store knows and whose password does not
    match the stored hash is answered with status 400 and the body "wrong
    credentials"; no cookie is set and the world is left as it was. *)
Theorem C5_wrong_password_rejected `{Bcrypt} `{Runtime} (w : World)
    (username password : string) (now : Date) (u : User.Doc) :
  stored_user username (users w) = Some u →
  compareSync password (User.password u) = false →
  app module_scope (POST_login username password now) w
  = (w, Normal (mkResponse 400 None (JStr "wrong credentials"))).
Proof.
  intros Hu Hpw. js_unfold. rewrite Hu. simpl. by rewrite Hpw.
Qed.

Lemma C5_wrong_password_rejected_witness :
  stored_user "alice" (users blog) = Some alice ∧
  compareSync (Bcrypt:=Bcrypt_plain) "guess" (User.password alice) = false ∧
  app (H:=Bcrypt_plain) module_scope (POST_login "alice" "guess" 5) blog
  = (blog, Normal (mkResponse 400 None (JStr "wrong credentials"))).
Proof.
  split; [reflexivity|]. split; [reflexivity|].
  apply (C5_wrong_password_rejected (H:=Bcrypt_plain) blog "alice" "guess" 5 alice);
    reflexivity.
Defined.

(** With [secret] bound, a login on a password match completes: the token
    carries the stored user's name and id, travels in the cookie [token],
    and the body is [{id, username}]. *)
Lemma login_issues_token `{Bcrypt} `{Runtime} scope key w username password now u :
  scope !! "secret" = Some key → key ≠ "" →
  stored_user username (users w) = Some u →
  compareSync password (User.password u) = true →
  app scope (POST_login username password now) w
  = (w, Normal (mkResponse 200
                  (Some ("token",
                         Signed (mkInfo (User.username u) (User._id u) (now / 1000)) key))
                  (JObj [("id", JStr (User._id u));
                         ("username", JStr (User.username u))]))).
Proof.
  intros Hs Hk Hu Hpw. apply stored_user_Some in Hu as Hname.
  destruct Hname as [_ ->].
  js_unfold. rewrite Hu. simpl. rewrite Hpw, Hs. simpl.
  by rewrite decide_False.
Qed.

(** C4. A login with the stored password of a stored user: the handler
    reads [secret] to sign the token and is abandoned by the
    ReferenceError; no response, no cookie. *)
Theorem C4_login_with_correct_password_faults :
  stored_user "alice" (users blog) = Some alice ∧
  compareSync (Bcrypt:=Bcrypt_plain) "pw" (User.password alice) = true ∧
  app (H:=Bcrypt_plain) module_scope (POST_login "alice" "pw" 5000) blog
  = (blog, Throw (ReferenceError "secret")) ∧
  app (H:=Bcrypt_plain) scope_with_secret (POST_login "alice" "pw" 5000) blog
  = (blog, Normal (mkResponse 200
                     (Some ("token", Signed (mkInfo "alice" "64a1f0c2b3d4e5f6a7b8c9d0" 5) "Secret-Service"))
                     (JObj [("id", JStr "64a1f0c2b3d4e5f6a7b8c9d0"); ("username", JStr "alice")]))).
Proof. repeat split. Qed.

(** ** Reading a single post *)




(** An id that does not cast is not answered, in any scope and any store;
    every id shorter than twelve characters is one. *)
Lemma get_post_id_malformed_faults `{Bcrypt} `{Runtime} scope w id :
  castObjectId id = None →
  app scope (GET_post_id id) w = (w, Throw (CastError id "_id")).
Proof. intros Hcast. js_unfold. by rewrite Hcast. Qed.

(** ** Registration *)

Lemma required_nil path value : value ≠ "" → required path value = [].
Proof. intros Hv. unfold required. by rewrite decide_False. Qed.

(** A registration with a non-empty username that is not yet taken creates
    the user, whatever the length of the username. *)
Lemma post_register_creates `{Bcrypt} `{Runtime} scope w username password salt new_id :
  username ≠ "" →
  new_id ∉ User._id <$> users w →
  username ∉ usernames w →
  let userDoc := User.mk new_id username (hashSync password salt) in
  app scope (POST_register username password salt new_id) w
  = (with_users (users w ++ [userDoc])%list w, Normal (res_json (User.json userDoc))).
Proof.
  intros Hname Hid Hfree userDoc. js_unfold.
  rewrite (required_nil "username") by done.
  rewrite (required_nil "password") by apply hashSync_nonempty.
  simpl. by rewrite !decide_False.
Qed.

Lemma post_register_taken `{Bcrypt} `{Runtime} scope w username password salt new_id :
  username ∈ usernames w →
  app scope (POST_register username password salt new_id) w
  = (w, Normal (res_status_json 400
                  (error_json
                     (MongooseError
                        (refusal (hashSync password salt) new_id username w))))).
Proof.
  intros Htaken. js_unfold. unfold refusal.
  destruct (_ ++ _)%list; simpl; [|done].
  case_decide; simpl; [done|].
  by rewrite decide_True.
Qed.

(** Every request leaves the collection of users alone, except a
    registration that appends one user under a username not yet taken. *)
Lemma app_users `{Bcrypt} `{Runtime} scope req w :
  users (app scope req w).1 = users w ∨
  ∃ u, (User.username u ∉ usernames w) ∧
       users (app scope req w).1 = (users w ++ [u])%list.
Proof.
  destruct req as [username pw salt i | username pw now | token | | part token t s c i now
                   | part token id t s c now | | ]; js_cases; auto.
  right. eexists. split; [|reflexivity]. done.
Qed.

(** As the program stands, no request changes the collection of posts. *)
Lemma app_posts_unchanged `{Bcrypt} `{Runtime} req w :
  posts (app module_scope req w).1 = posts w.
Proof.
  destruct req as [username pw salt i | username pw now | token | | part token t s c i now
                   | part token id t s c now | | ]; js_cases; auto;
    by match goal with Hs : module_scope !! _ = Some _ |- _ => vm_compute in Hs end.
Qed.

Lemma reachable_no_posts `{Bcrypt} `{Runtime} w : reachable w → posts w = [].
Proof.
  induction 1 as [|w req _ IH]; [done|]. by rewrite app_posts_unchanged.
Qed.

Lemma app_preserves_unique_usernames `{Bcrypt} `{Runtime} scope req w :
  unique_usernames w → unique_usernames (app scope req w).1.
Proof.
  unfold unique_usernames, usernames. intros Hnd.
  destruct (app_users scope req w) as [-> | (u & Hfresh & ->)]; [done|].
  rewrite fmap_app. simpl. apply NoDup_app. split_and!; [done | | apply NoDup_singleton].
  intros name Hin Hin'. apply list_elem_of_singleton in Hin' as ->. by apply Hfresh.
Qed.

Lemma reachable_unique_usernames `{Bcrypt} `{Runtime} w : reachable w → unique_usernames w.
Proof.
  induction 1 as [|w req _ IH].
  - apply NoDup_nil_2.
  - by apply app_preserves_unique_usernames.
Qed.

Lemma count_username_absent name w :
  name ∉ usernames w → count_username name w = 0%nat.
Proof.
  unfold count_username, usernames. induction (users w) as [|u us IH]; simpl; [done|].
  rewrite not_elem_of_cons. intros [Hne Hnin].
  rewrite filter_cons_False by congruence. auto.
Qed.

Lemma count_username_unique name w :
  unique_usernames w → name ∈ usernames w → count_username name w = 1%nat.
Proof.
  unfold unique_usernames, count_username, usernames.
  induction (users w) as [|u us IH]; simpl.
  - intros _ Hin. by apply elem_of_nil in Hin.
  - rewrite NoDup_cons, elem_of_cons. intros [Hfresh Hnd] [-> | Hin].
    + rewrite filter_cons_True by done. simpl. f_equal.
      apply (count_username_absent _ (mkWorld us [] ∅)), Hfresh.
    + rewrite filter_cons_False; [by apply IH|].
      intros <-. by apply Hfresh.
Qed.

(** C6. Usernames are unique in the collection of users and stay so under
    every request; registering a username that is already stored is refused
    by the store, the handler answers 400 with the error it caught, and the
    collection is left with exactly one user of that name. *)
Theorem C6_username_uniqueness `{Bcrypt} `{Runtime} (w : World)
    (username password salt : string) (new_id : ObjectId) :
  unique_usernames w →
  username ∈ usernames w →
  (∀ req, unique_usernames (app module_scope req w).1) ∧
  (∃ e : store_error,
     app module_scope (POST_register username password salt new_id) w
     = (w, Normal (mkResponse 400 None (error_json (MongooseError e)))) ∧
     (username ≠ "" → new_id ∉ User._id <$> users w →
      e = DuplicateKey "username_1" "username" username)) ∧
  count_username username w = 1%nat.
Proof.
  intros Huniq Htaken. split_and!.
  - intros req. by apply app_preserves_unique_usernames.
  - eexists. split; [by apply post_register_taken|].
    intros Hname Hid. unfold refusal.
    rewrite (required_nil "username") by done.
    rewrite (required_nil "password") by apply hashSync_nonempty.
    simpl. by rewrite decide_False.
  - by apply count_username_unique.
Qed.

Lemma blog_unique_usernames : unique_usernames blog.
Proof. apply (bool_decide_unpack _). vm_compute. reflexivity. Qed.

Lemma alice_registered : "alice" ∈ usernames blog.
Proof. apply (bool_decide_unpack _). vm_compute. reflexivity. Qed.

Lemma C6_username_uniqueness_witness :
  unique_usernames blog ∧
  "alice" ∈ usernames blog ∧
  app (H:=Bcrypt_plain) module_scope
    (POST_register "alice" "other" "salt" "64c3f0c2b3d4e5f6a7b8c9d2") blog
  = (blog,
     Normal (mkResponse 400 None
               (JObj [("index", JNum 0); ("code", JNum 11000);
                      ("keyPattern", JObj [("username", JNum 1)]);
                      ("keyValue", JObj [("username", JStr "alice")])]))) ∧
  count_username "alice" blog = 1%nat.
Proof.
  split; [exact blog_unique_usernames|]. split; [exact alice_registered|].
  destruct (C6_username_uniqueness (H:=Bcrypt_plain) blog "alice" "other" "salt"
              "64c3f0c2b3d4e5f6a7b8c9d2" blog_unique_usernames alice_registered)
    as (_ & _ & Hcount).
  split; [reflexivity | exact Hcount].
Defined.

(** C9. A registration under the two-letter username [ab] is accepted: the
    store creates the user and the handler answers 200 with the record.
    [min: 4] on the String path [username] validates nothing. *)
Theorem C9_short_username_is_stored :
  String.length "ab" = 2%nat ∧
  app (H:=Bcrypt_plain) module_scope (POST_register "ab" "pw" "salt" "64c3f0c2b3d4e5f6a7b8c9d2")
    empty_world
  = (mkWorld [User.mk "64c3f0c2b3d4e5f6a7b8c9d2" "ab" "$pw"] [] ∅,
     Normal (mkResponse 200 None
               (JObj [("username", JStr "ab"); ("password", JStr "$pw");
                      ("_id", JStr "64c3f0c2b3d4e5f6a7b8c9d2"); ("__v", JNum 0)]))).
Proof. split; reflexivity. Qed.

(** ** Listing posts *)

Lemma sort_createdAt_desc_sorted ps :
  StronglySorted newest_first (sort_createdAt_desc ps).
Proof. apply StronglySorted_merge_sort; apply _. Qed.

Lemma sort_createdAt_desc_perm ps : sort_createdAt_desc ps ≡ₚ ps.
Proof. apply merge_sort_Permutation. Qed.

Lemma listing_length w :
  List.length (listing w) = Nat.min 20 (List.length (posts w)).
Proof.
  unfold listing, limit. rewrite length_take.
  by rewrite (Permutation_length (sort_createdAt_desc_perm (posts w))).
Qed.

Lemma listing_sorted w : StronglySorted newest_first (listing w).
Proof.
  unfold listing, limit.
  apply (StronglySorted_app_1_l _ _ (drop 20 (sort_createdAt_desc (posts w)))).
  rewrite take_drop. apply sort_createdAt_desc_sorted.
Qed.

(** The posts left out of the listing are none of them newer than a listed
    one. *)
Lemma listing_newest w :
  ∃ rest, (listing w ++ rest)%list ≡ₚ posts w ∧
          ∀ p q, p ∈ listing w → q ∈ rest → newest_first p q.
Proof.
  exists (drop 20 (sort_createdAt_desc (posts w))). unfold listing, limit. split.
  - rewrite take_drop. apply sort_createdAt_desc_perm.
  - intros p q Hp Hq.
    apply (StronglySorted_app_1_elem_of newest_first
             (take 20 (sort_createdAt_desc (posts w)))
             (drop 20 (sort_createdAt_desc (posts w)))); [|done..].
    rewrite take_drop. apply sort_createdAt_desc_sorted.
Qed.

(** Without ties the order is strict. *)
Lemma sorted_distinct_strict ps :
  StronglySorted newest_first ps → NoDup (Post.createdAt <$> ps) →
  StronglySorted strictly_newer ps.
Proof.
  induction 1 as [|p ps Hs IH Hall]; simpl; [constructor|].
  rewrite NoDup_cons. intros [Hfresh Hnd]. constructor; [by apply IH|].
  rewrite Forall_forall in Hall |- *. intros q Hq.
  assert (Post.createdAt q ≠ Post.createdAt p).
  { intros Heq. apply Hfresh. rewrite <- Heq. by apply list_elem_of_fmap_2. }
  specialize (Hall q Hq). unfold newest_first in Hall. unfold strictly_newer. lia.
Qed.

(** What [populate] leaves under [author]. *)
Lemma populate_author_cases us p :
  (populate_author us p = JNull ∧ Post.author p ∉ User._id <$> us) ∨
  (∃ u, u ∈ us ∧ User._id u = Post.author p ∧
        populate_author us p
        = JObj [("_id", JStr (User._id u)); ("username", JStr (User.username u))]).
Proof.
  unfold populate_author, User_findById.
  destruct (find _ us) as [u|] eqn:Hf.
  - right. exists u. apply find_some in Hf as [Hin Hb].
    apply bool_decide_eq_true in Hb. by rewrite list_elem_of_In.
  - left. split; [done|]. intros (u & Heq & Hin)%list_elem_of_fmap.
    apply list_elem_of_In in Hin.
    apply (find_none _ _ Hf) in Hin. simpl in Hin.
    by rewrite bool_decide_eq_true_2 in Hin.
Qed.

Lemma populated_json_no_password us p :
  mentions_key "password" (populated_json us p) = false.
Proof.
  unfold populated_json, Post.json_with.
  destruct (populate_author_cases us p) as [[-> _] | (u & _ & _ & ->)]; reflexivity.
Qed.

Lemma listing_json_no_password us ps :
  mentions_key "password" (JArr (populated_json us <$> ps)) = false.
Proof.
  simpl. induction ps as [|p ps IH]; [done|].
  cbn [fmap list_fmap existsb]. by rewrite populated_json_no_password, IH.
Qed.

(** C3, as stated, fails on two posts created in the same millisecond: both
    are listed, neither is strictly newer than the other; and the populated
    author carries [_id] next to [username]. *)
Lemma C3_listing_counterexample :
  (app (H:=Bcrypt_plain) module_scope GET_post twins).2
  = Normal (mkResponse 200 None
      (JArr [Post.json_with (JObj [("_id", JStr "64a1f0c2b3d4e5f6a7b8c9d0"); ("username", JStr "alice")])
               alice_post;
             Post.json_with (JObj [("_id", JStr "64b2f0c2b3d4e5f6a7b8c9d1"); ("username", JStr "bob")])
               bob_post])) ∧
  listing twins = [alice_post; bob_post] ∧
  Post.createdAt alice_post = Post.createdAt bob_post ∧
  ¬ Sorted strictly_newer (listing twins) ∧
  keys (populate_author (users twins) alice_post) ≠ ["username"].
Proof.
  split_and!; try reflexivity.
  - apply (bool_decide_unpack _). vm_compute. reflexivity.
  - discriminate.
Qed.

(** C3, amended. The listing is answered with status 200 and holds the
    [min(20, n)] newest of the [n] stored posts (so at most 20, and exactly
    20 once 20 or more are stored), newest first: creation times never
    increase along it and strictly decrease when no two listed posts share
    one.  Each post's author is null when the reference dangles and
    otherwise the [_id] and [username] of the referenced user; the key
    [password] occurs nowhere in the response. *)
Theorem C3_listing_newest_twenty `{Bcrypt} `{Runtime} (w : World) :
  app module_scope GET_post w
  = (w, Normal (mkResponse 200 None
                  (JArr (populated_json (users w) <$> listing w)))) ∧
  List.length (listing w) = Nat.min 20 (List.length (posts w)) ∧
  StronglySorted newest_first (listing w) ∧
  (∃ rest, (listing w ++ rest)%list ≡ₚ posts w ∧
           ∀ p q, p ∈ listing w → q ∈ rest → newest_first p q) ∧
  (NoDup (Post.createdAt <$> listing w) →
   StronglySorted strictly_newer (listing w)) ∧
  Forall (λ p,
    (populate_author (users w) p = JNull ∧
     Post.author p ∉ User._id <$> users w) ∨
    (∃ u, u ∈ users w ∧ User._id u = Post.author p ∧
          populate_author (users w) p
          = JObj [("_id", JStr (User._id u));
                  ("username", JStr (User.username u))])) (listing w) ∧
  mentions_key "password" (JArr (populated_json (users w) <$> listing w)) = false.
Proof.
  split_and!.
  - reflexivity.
  - apply listing_length.
  - apply listing_sorted.
  - apply listing_newest.
  - apply sorted_distinct_strict, listing_sorted.
  - apply Forall_forall. intros p _. apply populate_author_cases.
  - apply listing_json_no_password.
Qed.

(** Twenty-five stored posts are listed as twenty. *)
Lemma listing_of_25_has_20 w :
  List.length (posts w) = 25%nat → List.length (listing w) = 20%nat.
Proof. intros H25. rewrite listing_length, H25. reflexivity. Qed.

(** ** The renamed upload *)

Lemma split_nonempty sep s : split sep s ≠ [].
Proof.
  destruct s as [|c s]; simpl; [done|].
  destruct (Ascii.eqb c sep); [done|]. by destruct (split sep s).
Qed.

Lemma split_without_separator sep s : occurs sep s = false → split sep s = [s].
Proof.
  induction s as [|c s IH]; simpl; [done|].
  intros [Hc Hs]%orb_false_elim. rewrite Hc, IH; done.
Qed.

Lemma split_two_pieces sep base ext :
  (2 ≤ List.length (split sep (base +:+ String sep ext)))%nat.
Proof.
  induction base as [|c base IH]; simpl.
  - rewrite Ascii.eqb_refl. simpl.
    pose proof (split_nonempty sep ext). destruct (split sep ext); simpl; [done | lia].
  - destruct (Ascii.eqb c sep); simpl; [lia|].
    destruct (split sep (base +:+ String sep ext)); simpl in *; lia.
Qed.

Lemma last_part_cons piece parts :
  parts ≠ [] → last_part (piece :: parts) = last_part parts.
Proof. unfold last_part. by destruct parts. Qed.

(** The piece after the last separator is what the handlers call [ext]. *)
Lemma last_part_split sep base ext :
  occurs sep ext = false →
  last_part (split sep (base +:+ String sep ext)) = ext.
Proof.
  intros Hext. induction base as [|c base IH]; simpl.
  - rewrite Ascii.eqb_refl, last_part_cons by apply split_nonempty.
    by rewrite split_without_separator.
  - destruct (Ascii.eqb c sep).
    + by rewrite last_part_cons by apply split_nonempty.
    + pose proof (split_two_pieces sep base ext) as Hlen.
      destruct (split sep (base +:+ String sep ext)) as [|piece parts];
        simpl in Hlen; [lia|].
      assert (parts ≠ []) by (intros ->; simpl in Hlen; lia).
      rewrite last_part_cons in IH by done. by rewrite last_part_cons.
Qed.

(** An upload named [base.ext] is renamed to its path followed by [.ext];
    one without a dot, to its path followed by a dot and the whole name. *)
Lemma renamed_path_extension base ext path :
  occurs "." ext = false →
  renamed_path (base +:+ "." +:+ ext) path = path +:+ "." +:+ ext.
Proof.
  intros Hext. unfold renamed_path.
  change (base +:+ "." +:+ ext) with (base +:+ String "." ext).
  by rewrite last_part_split.
Qed.

Lemma renamed_path_without_dot name path :
  occurs "." name = false → renamed_path name path = path +:+ "." +:+ name.
Proof. intros Hn. unfold renamed_path. simpl. by rewrite split_without_separator. Qed.

(** ** Comparing the author with the token *)

Lemma append_quote_inj a b : a +:+ quote = b +:+ quote → a = b.
Proof.
  revert b. induction a as [|c a IH]; intros [|d b]; simpl; intros Heq.
  - done.
  - injection Heq as _ Heq. by destruct b.
  - injection Heq as _ Heq. by destruct a.
  - injection Heq as -> Heq. f_equal. by apply IH.
Qed.

Lemma isAuthor_spec (author id : ObjectId) :
  String.eqb (JSON_stringify author) (JSON_stringify id) = bool_decide (author = id).
Proof.
  unfold JSON_stringify. case_bool_decide as Heq.
  - subst. apply String.eqb_refl.
  - apply String.eqb_neq. intros Hq. apply Heq.
    simpl in Hq. injection Hq as Hq. by apply append_quote_inj.
Qed.

(** ** Creating and updating posts, were [secret] bound

    The four lemmas below run the post handlers in a scope that binds
    [secret], on a token signed with that key. *)

Lemma stored_post_updateOne id change ps p :
  stored_post id ps = Some p →
  Post._id (change p) = id →
  stored_post id (updateOne id change ps) = Some (change p).
Proof.
  unfold stored_post. intros Hp Hid. induction ps as [|q ps IH]; simpl in *; [done|].
  case_bool_decide as Hq.
  - injection Hp as ->. rewrite decide_True by done. simpl.
    by rewrite bool_decide_eq_true_2.
  - rewrite decide_False by done. simpl. rewrite bool_decide_eq_false_2 by done. auto.
Qed.

Opaque JSON_stringify.

Ltac run_upload Hgo :=
  js_unfold; simpl; unfold rename_goes_through, renamed, stored_path in Hgo;
  try (rewrite decide_True by set_solver;
       destruct (rename_refused _); [done|]); simpl.

Ltac run_with_secret Hs Hk :=
  rewrite Hs; simpl; rewrite (decide_False _ _ Hk); simpl;
  rewrite decide_True by done; simpl.

Lemma put_post_rejects_other_author `{Bcrypt} `{Runtime} scope key w part info
    id oid t s c now p :
  scope !! "secret" = Some key → key ≠ "" →
  rename_goes_through part = true →
  castObjectId id = Some oid →
  stored_post oid (posts w) = Some p →
  Post.author p ≠ info_id info →
  (app scope (PUT_post part (Some (Signed info key)) id t s c now) w).2
  = Normal (mkResponse 400 None (JStr "you are not the author")) ∧
  posts (app scope (PUT_post part (Some (Signed info key)) id t s c now) w).1
  = posts w.
Proof.
  intros Hs Hk Hgo Hcast Hp Hother.
  destruct part as [fp|]; run_upload Hgo; run_with_secret Hs Hk;
    rewrite Hcast; simpl; rewrite Hp; simpl;
    rewrite isAuthor_spec, bool_decide_eq_false_2 by done; done.
Qed.

Lemma put_post_by_author `{Bcrypt} `{Runtime} scope key w part info
    id oid t s c now p :
  scope !! "secret" = Some key → key ≠ "" →
  rename_goes_through part = true →
  castObjectId id = Some oid →
  stored_post oid (posts w) = Some p →
  Post.author p = info_id info →
  (app scope (PUT_post part (Some (Signed info key)) id t s c now) w).2
  = Normal (mkResponse 200 None (Post.json p)) ∧
  stored_post oid
    (posts (app scope (PUT_post part (Some (Signed info key)) id t s c now) w).1)
  = Some (Post.mk oid t s c (cover_after part p) (Post.author p)
            (Post.createdAt p) now).
Proof.
  intros Hs Hk Hgo Hcast Hp Hauthor.
  apply stored_post_Some in Hp as Hid. destruct Hid as [_ Hid].
  destruct part as [fp|]; run_upload Hgo; run_with_secret Hs Hk;
    rewrite Hcast; simpl; rewrite Hp; simpl;
    rewrite isAuthor_spec, bool_decide_eq_true_2 by done; simpl;
    (split; [done|]); rewrite Hid;
    rewrite (stored_post_updateOne oid _ _ p Hp) by done;
    unfold set_fields; by rewrite Hid.
Qed.

Lemma post_post_creates `{Bcrypt} `{Runtime} scope key w fp info author
    t s c new_id now :
  scope !! "secret" = Some key → key ≠ "" →
  rename_refused (renamed fp) = None →
  castObjectId (info_id info) = Some author →
  new_id ∉ Post._id <$> posts w →
  let postDoc := Post.mk new_id t s c (renamed fp) author now now in
  let after := app scope (POST_post (Some fp) (Some (Signed info key)) t s c new_id now) w in
  after.2 = Normal (mkResponse 200 None (Post.json postDoc)) ∧
  posts after.1 = (posts w ++ [postDoc])%list ∧
  users after.1 = users w ∧
  renamed fp ∈ files after.1.
Proof.
  intros Hs Hk Hgo Hcast Hfresh postDoc after. subst after postDoc.
  unfold renamed, stored_path in *.
  js_unfold; simpl. rewrite decide_True by set_solver. rewrite Hgo. simpl.
  run_with_secret Hs Hk. rewrite Hcast. simpl. rewrite decide_False by done. simpl.
  split_and!; [done..|set_solver].
Qed.

Transparent JSON_stringify.

(** ** The post handlers as the program has them *)

(** C1. Bob's token against Alice's post: the update handler reads [secret]
    to verify the token and is abandoned by the ReferenceError; the post is
    untouched, but no 400 is sent.  With [secret] bound the same request is
    answered 400 "you are not the author". *)
Theorem C1_update_by_other_user_faults :
  stored_post "70c1e4a2b3d4e5f6a7b8c9e0" (posts blog) = Some alice_post ∧
  Post.author alice_post ≠ User._id bob ∧
  app (H:=Bcrypt_plain) module_scope
    (PUT_post None (token_for bob "Secret-Service") "70c1e4a2b3d4e5f6a7b8c9e0" "Hijacked" "s" "c" 2000)
    blog
  = (blog, Throw (ReferenceError "secret")) ∧
  app (H:=Bcrypt_plain) scope_with_secret
    (PUT_post None (token_for bob "Secret-Service") "70c1e4a2b3d4e5f6a7b8c9e0" "Hijacked" "s" "c" 2000)
    blog
  = (blog, Normal (mkResponse 400 None (JStr "you are not the author"))).
Proof. split_and!; [reflexivity | discriminate | reflexivity | reflexivity]. Qed.

(** C7. Alice's token against her own post, no new file: the handler is
    abandoned at [secret] before it loads the post, so title, summary and
    content are not set to the supplied values.  With [secret] bound the
    update is written and the cover kept. *)
Theorem C7_update_by_author_faults :
  app (H:=Bcrypt_plain) module_scope
    (PUT_post None (token_for alice "Secret-Service") "70c1e4a2b3d4e5f6a7b8c9e0" "Hello again"
       "Edited" "<p>v2</p>" 2000)
    blog
  = (blog, Throw (ReferenceError "secret")) ∧
  posts blog = [alice_post] ∧
  Post.title alice_post = "Hello" ∧
  posts (app (H:=Bcrypt_plain) scope_with_secret
           (PUT_post None (token_for alice "Secret-Service") "70c1e4a2b3d4e5f6a7b8c9e0" "Hello again"
              "Edited" "<p>v2</p>" 2000)
           blog).1
  = [Post.mk "70c1e4a2b3d4e5f6a7b8c9e0" "Hello again" "Edited" "<p>v2</p>" "uploads/9f3a.png" "64a1f0c2b3d4e5f6a7b8c9d0"
       1000 2000].
Proof. split_and!; reflexivity. Qed.

(** C10. A post creation with an upload and Alice's token: the upload is
    renamed to carry its extension, then the handler is abandoned at
    [secret]; no Post is created and nothing is returned.  With [secret]
    bound the Post is created with the renamed cover and the token's id. *)
Theorem C10_create_post_faults :
  (app (H:=Bcrypt_plain) module_scope
     (POST_post (Some (mkPart "cat.photo.png" "5e1f"))
        (token_for alice "Secret-Service") "Cats" "On cats" "<p>Meow</p>" "70c9e4a2b3d4e5f6a7b8c9e2" 3000)
     blog).2
  = Throw (ReferenceError "secret") ∧
  posts (app (H:=Bcrypt_plain) module_scope
           (POST_post (Some (mkPart "cat.photo.png" "5e1f"))
              (token_for alice "Secret-Service") "Cats" "On cats" "<p>Meow</p>" "70c9e4a2b3d4e5f6a7b8c9e2" 3000)
           blog).1
  = posts blog ∧
  files (app (H:=Bcrypt_plain) module_scope
           (POST_post (Some (mkPart "cat.photo.png" "5e1f"))
              (token_for alice "Secret-Service") "Cats" "On cats" "<p>Meow</p>" "70c9e4a2b3d4e5f6a7b8c9e2" 3000)
           blog).1
  = {["uploads/5e1f.png"; "uploads/9f3a.png"]} ∧
  posts (app (H:=Bcrypt_plain) scope_with_secret
           (POST_post (Some (mkPart "cat.photo.png" "5e1f"))
              (token_for alice "Secret-Service") "Cats" "On cats" "<p>Meow</p>" "70c9e4a2b3d4e5f6a7b8c9e2" 3000)
           blog).1
  = [alice_post;
     Post.mk "70c9e4a2b3d4e5f6a7b8c9e2" "Cats" "On cats" "<p>Meow</p>" "uploads/5e1f.png" "64a1f0c2b3d4e5f6a7b8c9d0"
       3000 3000].
Proof. split_and!; vm_compute; reflexivity. Qed.

(** * Further properties of the handlers *)

(** ** Registration *)

Lemma stored_user_appended name us u :
  name ∉ User.username <$> us → User.username u = name →
  stored_user name (us ++ [u])%list = Some u.
Proof.
  unfold stored_user. intros Hfree Hname. induction us as [|v us IH]; simpl.
  - by rewrite bool_decide_eq_true_2.
  - simpl in Hfree. apply not_elem_of_cons in Hfree as [Hne Hfree].
    rewrite bool_decide_eq_false_2 by congruence. auto.
Qed.

(** X1. Registering a non-empty username that is not taken, under a fresh
    id, appends one user whose password is the bcrypt hash of the one
    supplied, answers 200 with the whole record, hash included, and the
    username now looks up that user. *)
Theorem register_stores_hashed_user `{Bcrypt} `{Runtime} (scope : gmap string string)
    (w : World) (username password salt : string) (new_id : ObjectId) :
  username ≠ "" →
  new_id ∉ User._id <$> users w →
  username ∉ usernames w →
  let userDoc := User.mk new_id username (hashSync password salt) in
  let after := app scope (POST_register username password salt new_id) w in
  after = (with_users (users w ++ [userDoc])%list w,
           Normal (mkResponse 200 None (User.json userDoc))) ∧
  stored_user username (users after.1) = Some userDoc ∧
  compareSync password (User.password userDoc) = true ∧
  mentions_key "password" (User.json userDoc) = true.
Proof.
  intros Hname Hid Hfree userDoc after. subst after.
  rewrite post_register_creates by done. split_and!.
  - done.
  - simpl. by apply stored_user_appended.
  - apply compareSync_hashSync.
  - reflexivity.
Qed.

Lemma register_stores_hashed_user_witness :
  "carol" ≠ "" ∧ ("64c3f0c2b3d4e5f6a7b8c9d2" ∉ User._id <$> users blog) ∧ ("carol" ∉ usernames blog) ∧
  stored_user "carol"
    (users (app (H:=Bcrypt_plain) module_scope
              (POST_register "carol" "s3cret" "salt" "64c3f0c2b3d4e5f6a7b8c9d2") blog).1)
  = Some (User.mk "64c3f0c2b3d4e5f6a7b8c9d2" "carol" "$s3cret").
Proof.
  assert (H1 : "carol" ≠ "") by discriminate.
  assert (H2 : "64c3f0c2b3d4e5f6a7b8c9d2" ∉ User._id <$> users blog)
    by (apply (bool_decide_unpack _); vm_compute; reflexivity).
  assert (H3 : "carol" ∉ usernames blog)
    by (apply (bool_decide_unpack _); vm_compute; reflexivity).
  split_and!; [done..|].
  exact (proj1 (proj2 (register_stores_hashed_user (H:=Bcrypt_plain) module_scope
                         blog "carol" "s3cret" "salt" "64c3f0c2b3d4e5f6a7b8c9d2" H1 H2 H3))).
Defined.

(** X2. The registration handler never lets an exception escape: it answers
    200 after appending exactly one user, or 400 with the world as it was. *)
Theorem register_always_answers `{Bcrypt} `{Runtime} (scope : gmap string string)
    (w : World) (username password salt : string) (new_id : ObjectId) :
  ∃ r, (app scope (POST_register username password salt new_id) w).2 = Normal r ∧
       ((status r = 200 ∧
         users (app scope (POST_register username password salt new_id) w).1
         = (users w ++ [User.mk new_id username (hashSync password salt)])%list) ∨
        (status r = 400 ∧
         (app scope (POST_register username password salt new_id) w).1 = w)).
Proof.
  js_unfold. destruct (_ ++ _)%list; simpl.
  - repeat case_decide; simpl; eauto.
  - eauto.
Qed.

(** X3. An empty username is refused by [required: true]: 400 with the
    validation error for the path [username], nothing stored. *)
Theorem register_empty_username_refused `{Bcrypt} `{Runtime} (scope : gmap string string)
    (w : World) (password salt : string) (new_id : ObjectId) :
  app scope (POST_register "" password salt new_id) w
  = (w, Normal (mkResponse 400 None
                  (error_json (MongooseError (ValidationError "User" ["username"]))))).
Proof.
  js_unfold. unfold required at 1. simpl.
  rewrite (required_nil "password") by apply hashSync_nonempty. done.
Qed.

(** ** Login, profile and logout *)

Lemma stored_user_absent name us :
  name ∉ User.username <$> us → stored_user name us = None.
Proof.
  unfold stored_user. induction us as [|u us IH]; simpl; [done|].
  rewrite not_elem_of_cons. intros [Hne Hnin].
  rewrite bool_decide_eq_false_2 by congruence. auto.
Qed.

(** X4. A login under a username the store does not hold is not answered:
    reading [password] of the null lookup result throws a TypeError, and
    the world is left as it was. *)
Theorem login_unknown_user_faults `{Bcrypt} `{Runtime} (scope : gmap string string)
    (w : World) (username password : string) (now : Date) :
  username ∉ usernames w →
  app scope (POST_login username password now) w
  = (w, Throw (TypeError "Cannot read properties of null (reading 'password')")).
Proof.
  intros Hnew. js_unfold. by rewrite stored_user_absent.
Qed.

Lemma login_unknown_user_faults_witness :
  ("mallory" ∉ usernames blog) ∧
  app (H:=Bcrypt_plain) module_scope (POST_login "mallory" "x" 5) blog
  = (blog, Throw (TypeError "Cannot read properties of null (reading 'password')")).
Proof.
  assert (Hnew : "mallory" ∉ usernames blog)
    by (apply (bool_decide_unpack _); vm_compute; reflexivity).
  split; [exact Hnew|].
  exact (login_unknown_user_faults (H:=Bcrypt_plain) module_scope blog
           "mallory" "x" 5 Hnew).
Defined.

(** X5. Whatever a login answers, it answers 400 without a cookie on a
    password mismatch, or 200 on a match with the cookie [token] holding a
    token for the stored user's name and id, signed with the value of
    [secret]; a cookie is never set without a password match. *)
Theorem login_answers `{Bcrypt} `{Runtime} (scope : gmap string string) (w : World)
    (username password : string) (now : Date) (r : Response) :
  (app scope (POST_login username password now) w).2 = Normal r →
  ∃ u, stored_user username (users w) = Some u ∧
       ((compareSync password (User.password u) = false ∧
         r = mkResponse 400 None (JStr "wrong credentials")) ∨
        (compareSync password (User.password u) = true ∧
         ∃ key, scope !! "secret" = Some key ∧
                r = mkResponse 200
                      (Some ("token",
                             Signed (mkInfo username (User._id u) (now / 1000)) key))
                      (JObj [("id", JStr (User._id u));
                             ("username", JStr username)]))).
Proof.
  js_unfold. destruct (stored_user username (users w)) as [u|]; simpl; [|done].
  intros Hr. exists u. split; [done|].
  destruct (compareSync password (User.password u)); simpl in Hr.
  - right. split; [done|].
    destruct (scope !! "secret") as [key|]; simpl in Hr; [|done].
    exists key. split; [done|]. case_decide; simpl in Hr; by simplify_eq.
  - left. by simplify_eq.
Qed.

Lemma login_answers_witness :
  (app (H:=Bcrypt_plain) scope_with_secret (POST_login "alice" "pw" 5000) blog).2
  = Normal (mkResponse 200
              (Some ("token", Signed (mkInfo "alice" "64a1f0c2b3d4e5f6a7b8c9d0" 5) "Secret-Service"))
              (JObj [("id", JStr "64a1f0c2b3d4e5f6a7b8c9d0"); ("username", JStr "alice")])) ∧
  ∃ u, stored_user "alice" (users blog) = Some u.
Proof.
  assert (Hr : (app (H:=Bcrypt_plain) scope_with_secret
                  (POST_login "alice" "pw" 5000) blog).2
               = Normal (mkResponse 200
                           (Some ("token",
                                  Signed (mkInfo "alice" "64a1f0c2b3d4e5f6a7b8c9d0" 5) "Secret-Service"))
                           (JObj [("id", JStr "64a1f0c2b3d4e5f6a7b8c9d0"); ("username", JStr "alice")])))
    by reflexivity.
  split; [exact Hr|].
  destruct (login_answers (H:=Bcrypt_plain) scope_with_secret blog "alice" "pw"
              5000 _ Hr) as (u & Hu & _).
  exists u. exact Hu.
Defined.

(** X6. In a scope that binds [secret] to a non-empty key, registering a
    new user and then logging in with the same password is answered 200
    with a token for the id the registration assigned. *)
Theorem register_then_login `{Bcrypt} `{Runtime} (scope : gmap string string) (key : string)
    (w : World) (username password salt : string) (new_id : ObjectId)
    (now : Date) :
  scope !! "secret" = Some key → key ≠ "" →
  username ≠ "" →
  new_id ∉ User._id <$> users w →
  username ∉ usernames w →
  let registered := (app scope (POST_register username password salt new_id) w).1 in
  app scope (POST_login username password now) registered
  = (registered,
     Normal (mkResponse 200
               (Some ("token", Signed (mkInfo username new_id (now / 1000)) key))
               (JObj [("id", JStr new_id); ("username", JStr username)]))).
Proof.
  intros Hs Hk Hname Hid Hfree registered. subst registered.
  rewrite post_register_creates by done. simpl.
  apply (login_issues_token scope key _ username password now
           (User.mk new_id username (hashSync password salt))); try done.
  - simpl. by apply stored_user_appended.
  - apply compareSync_hashSync.
Qed.

Lemma register_then_login_witness :
  scope_with_secret !! "secret" = Some "Secret-Service" ∧
  app (H:=Bcrypt_plain) scope_with_secret (POST_login "carol" "s3cret" 9000)
    (app (H:=Bcrypt_plain) scope_with_secret
       (POST_register "carol" "s3cret" "salt" "64c3f0c2b3d4e5f6a7b8c9d2") blog).1
  = ((app (H:=Bcrypt_plain) scope_with_secret
        (POST_register "carol" "s3cret" "salt" "64c3f0c2b3d4e5f6a7b8c9d2") blog).1,
     Normal (mkResponse 200
               (Some ("token", Signed (mkInfo "carol" "64c3f0c2b3d4e5f6a7b8c9d2" 9) "Secret-Service"))
               (JObj [("id", JStr "64c3f0c2b3d4e5f6a7b8c9d2"); ("username", JStr "carol")]))).
Proof.
  split; [reflexivity|].
  apply (register_then_login (H:=Bcrypt_plain) scope_with_secret "Secret-Service"
           blog "carol" "s3cret" "salt" "64c3f0c2b3d4e5f6a7b8c9d2" 9000).
  - reflexivity.
  - discriminate.
  - discriminate.
  - apply (bool_decide_unpack _); vm_compute; reflexivity.
  - apply (bool_decide_unpack _); vm_compute; reflexivity.
Defined.

(** X7. The profile route answers only a token signed with the value of
    [secret], and then with exactly that token's payload; the world is
    never changed. *)
Theorem profile_answers_only_signed_tokens `{Bcrypt} `{Runtime} (scope : gmap string string)
    (w : World) (token : option Cookie) (r : Response) :
  (app scope (GET_profile token) w).2 = Normal r →
  ∃ info key, token = Some (Signed info key) ∧
              scope !! "secret" = Some key ∧
              r = mkResponse 200 None
                    (JObj [("username", JStr (info_username info));
                           ("id", JStr (info_id info));
                           ("iat", JNum (iat info))]) ∧
              (app scope (GET_profile token) w).1 = w.
Proof.
  js_unfold. destruct (scope !! "secret") as [key|]; simpl; [|done].
  destruct token as [[info signer|text]|]; simpl; [| by destruct text | done].
  repeat case_decide; simpl; try done.
  intros [= <-]. subst. by exists info, key.
Qed.

Lemma profile_answers_only_signed_tokens_witness :
  ∃ info key, token_for alice "Secret-Service" = Some (Signed info key) ∧
              scope_with_secret !! "secret" = Some key.
Proof.
  assert (Hr : (app (H:=Bcrypt_plain) scope_with_secret
                  (GET_profile (token_for alice "Secret-Service")) blog).2
               = Normal (mkResponse 200 None
                           (JObj [("username", JStr "alice"); ("id", JStr "64a1f0c2b3d4e5f6a7b8c9d0");
                                  ("iat", JNum 1)])))
    by reflexivity.
  destruct (profile_answers_only_signed_tokens (H:=Bcrypt_plain) scope_with_secret
              blog _ _ Hr) as (info & key & Ht & Hs & _).
  exists info, key. split; [exact Ht | exact Hs].
Defined.

(** X8. In a scope that binds [secret] to a non-empty key, the cookie a
    successful login sets is answered by the profile route with the
    username and id of the user who logged in. *)
Theorem login_then_profile `{Bcrypt} `{Runtime} (scope : gmap string string) (key : string)
    (w : World) (username password : string) (now : Date) (u : User.Doc) :
  scope !! "secret" = Some key → key ≠ "" →
  stored_user username (users w) = Some u →
  compareSync password (User.password u) = true →
  ∃ r token, (app scope (POST_login username password now) w).2 = Normal r ∧
             cookie r = Some ("token", token) ∧
             app scope (GET_profile (Some token)) w
             = (w, Normal (mkResponse 200 None
                             (JObj [("username", JStr (User.username u));
                                    ("id", JStr (User._id u));
                                    ("iat", JNum (now / 1000))]))).
Proof.
  intros Hs Hk Hu Hpw.
  rewrite (login_issues_token scope key w username password now u) by done.
  eexists _, _. split_and!; [reflexivity..|].
  js_unfold. rewrite Hs. simpl. rewrite decide_False by done.
  by rewrite decide_True.
Qed.

Lemma login_then_profile_witness :
  stored_user "alice" (users blog) = Some alice ∧
  ∃ r token,
    (app (H:=Bcrypt_plain) scope_with_secret (POST_login "alice" "pw" 5000) blog).2
    = Normal r ∧
    cookie r = Some ("token", token) ∧
    app (H:=Bcrypt_plain) scope_with_secret (GET_profile (Some token)) blog
    = (blog, Normal (mkResponse 200 None
                       (JObj [("username", JStr "alice"); ("id", JStr "64a1f0c2b3d4e5f6a7b8c9d0");
                              ("iat", JNum 5)]))).
Proof.
  split; [reflexivity|].
  apply (login_then_profile (H:=Bcrypt_plain) scope_with_secret "Secret-Service"
           blog "alice" "pw" 5000 alice); [reflexivity | discriminate | reflexivity..].
Defined.

(** X9. Logout answers "ok", leaves the world alone and overwrites the
    cookie [token] with a value that the profile route answers in no scope
    and no world. *)
Theorem logout_cookie_is_no_session `{Bcrypt} `{Runtime} (scope : gmap string string)
    (w : World) :
  ∃ value,
    app scope POST_logout w
    = (w, Normal (mkResponse 200 (Some ("token", value)) (JStr "ok"))) ∧
    ∀ scope' w' r, (app scope' (GET_profile (Some value)) w').2 ≠ Normal r.
Proof.
  exists (Text ""). split; [reflexivity|].
  intros scope' w' r. js_unfold. by destruct (scope' !! "secret").
Qed.

(** ** What requests leave alone *)

(** X10. Login, profile, logout and both reading routes never change the
    world, whatever they answer and however they fail. *)
Theorem read_only_requests_keep_world `{Bcrypt} `{Runtime} (scope : gmap string string)
    (req : Request) (w : World) :
  read_only req = true → (app scope req w).1 = w.
Proof.
  destruct req; simpl; try done; intros _; js_cases; done.
Qed.

Lemma read_only_requests_keep_world_witness :
  read_only GET_post = true ∧
  (app (H:=Bcrypt_plain) module_scope GET_post blog).1 = blog.
Proof.
  split; [reflexivity|].
  apply (read_only_requests_keep_world (H:=Bcrypt_plain) module_scope GET_post blog).
  reflexivity.
Defined.

(** X11. Users are only ever appended: after any request, in any scope, the
    collection of users starts with the users it held before, unchanged. *)
Theorem users_append_only `{Bcrypt} `{Runtime} (scope : gmap string string)
    (req : Request) (w : World) :
  users w `prefix_of` users (app scope req w).1.
Proof.
  destruct (app_users scope req w) as [-> | (u & _ & ->)].
  - done.
  - by apply prefix_app_r.
Qed.

Lemma updateOne_identity id now t s c cv ps :
  post_identity <$> updateOne id (set_fields now t s c cv) ps = post_identity <$> ps.
Proof.
  induction ps as [|p ps IH]; [done|].
  cbn [updateOne]. case_decide; rewrite !fmap_cons; [done|]. by rewrite IH.
Qed.

(** X12. Posts are never deleted and keep their id, author and creation
    time: after any request, in any scope, the ids, authors and creation
    times of the posts held before are still there, in the same order. *)
Theorem posts_keep_identity `{Bcrypt} `{Runtime} (scope : gmap string string)
    (req : Request) (w : World) :
  (post_identity <$> posts w) `prefix_of` (post_identity <$> posts (app scope req w).1).
Proof.
  destruct req as [username pw salt i | username pw now | token | | part token t s c i now
                   | part token id t s c now | | ]; js_cases;
    rewrite ?updateOne_identity, ?fmap_app; try done; by apply prefix_app_r.
Qed.

(** X13. As the program stands, the blog never holds a post: every world
    reachable from empty collections has none, and no request adds one. *)
Theorem program_never_has_posts `{Bcrypt} `{Runtime} (w : World) (req : Request) :
  reachable w → posts w = [] ∧ posts (app module_scope req w).1 = [].
Proof.
  intros Hw. split; [by apply reachable_no_posts|].
  rewrite app_posts_unchanged. by apply reachable_no_posts.
Qed.

Lemma program_never_has_posts_witness :
  posts (app (H:=Bcrypt_plain) module_scope
           (POST_post (Some (mkPart "cat.png" "5e1f")) (token_for alice "Secret-Service")
              "Cats" "On cats" "<p>Meow</p>" "70c9e4a2b3d4e5f6a7b8c9e2" 3000)
           (app (H:=Bcrypt_plain) module_scope
              (POST_register "alice" "pw" "salt" "64a1f0c2b3d4e5f6a7b8c9d0") empty_world).1).1
  = [].
Proof.
  apply (program_never_has_posts (H:=Bcrypt_plain)).
  apply (reachable_step (H:=Bcrypt_plain)). apply reachable_empty.
Defined.

(** X14. As the program stands, no response ever carries a token: the only
    cookie set is the empty one of logout. *)
Theorem program_never_issues_token `{Bcrypt} `{Runtime} (req : Request) (w : World)
    (r : Response) :
  (app module_scope req w).2 = Normal r →
  cookie r = None ∨ (req = POST_logout ∧ cookie r = Some ("token", Text "")).
Proof.
  destruct req as [username pw salt i | username pw now | token | | part token t s c i now
                   | part token id t s c now | | ]; js_cases;
    intros; simplify_eq; auto;
    by match goal with Hs : module_scope !! _ = Some _ |- _ => vm_compute in Hs end.
Qed.

Lemma program_never_issues_token_witness :
  (app (H:=Bcrypt_plain) module_scope (POST_login "alice" "guess" 5) blog).2
  = Normal (mkResponse 400 None (JStr "wrong credentials")) ∧
  (cookie (mkResponse 400 None (JStr "wrong credentials")) = None ∨
   (POST_login "alice" "guess" 5 = POST_logout ∧
    cookie (mkResponse 400 None (JStr "wrong credentials"))
    = Some ("token", Text ""))).
Proof.
  assert (Hr : (app (H:=Bcrypt_plain) module_scope
                  (POST_login "alice" "guess" 5) blog).2
               = Normal (mkResponse 400 None (JStr "wrong credentials")))
    by reflexivity.
  split; [exact Hr|].
  exact (program_never_issues_token (H:=Bcrypt_plain) _ blog _ Hr).
Defined.

(** X15. In any scope, a request changes the collection of posts only if it
    carries a token signed with the value of [secret]. *)
Theorem posts_change_only_with_signed_token `{Bcrypt} `{Runtime}
    (scope : gmap string string) (req : Request) (w : World) :
  posts (app scope req w).1 ≠ posts w →
  ∃ info key, request_token req = Some (Signed info key) ∧
              scope !! "secret" = Some key.
Proof.
  destruct req as [username pw salt i | username pw now | token | | part token t s c i now
                   | part token id t s c now | | ]; js_cases;
    intros; simplify_eq; try done; eauto.
Qed.

Lemma posts_change_only_with_signed_token_witness :
  ∃ info key,
    token_for alice "Secret-Service" = Some (Signed info key) ∧
    scope_with_secret !! "secret" = Some key.
Proof.
  assert (Hch : posts (app (H:=Bcrypt_plain) scope_with_secret
                         (PUT_post None (token_for alice "Secret-Service") "70c1e4a2b3d4e5f6a7b8c9e0"
                            "Hello again" "Edited" "<p>v2</p>" 2000) blog).1
                ≠ posts blog) by (vm_compute; discriminate).
  exact (posts_change_only_with_signed_token (H:=Bcrypt_plain) scope_with_secret
           _ blog Hch).
Defined.

Opaque JSON_stringify.

(** X16. In any scope, an update request changes the collection of posts
    only if the id of its token is the author of the post it names. *)
Theorem only_the_author_updates `{Bcrypt} `{Runtime} (scope : gmap string string)
    (part : option FilePart) (token : option Cookie) (id : string)
    (t s c : string) (now : Date) (w : World) :
  posts (app scope (PUT_post part token id t s c now) w).1 ≠ posts w →
  ∃ oid p info key, castObjectId id = Some oid ∧
                    stored_post oid (posts w) = Some p ∧
                    token = Some (Signed info key) ∧
                    info_id info = Post.author p.
Proof.
  js_cases; intros; try done;
    match goal with
    | Hn : String.eqb _ _ = true |- _ =>
        rewrite isAuthor_spec in Hn; apply bool_decide_eq_true in Hn
    end; eauto 10.
Qed.

Transparent JSON_stringify.

Lemma only_the_author_updates_witness :
  ∃ oid p info key,
    castObjectId "70c1e4a2b3d4e5f6a7b8c9e0" = Some oid ∧
    stored_post oid (posts blog) = Some p ∧
    token_for alice "Secret-Service" = Some (Signed info key) ∧
    info_id info = Post.author p.
Proof.
  assert (Hch : posts (app (H:=Bcrypt_plain) scope_with_secret
                         (PUT_post None (token_for alice "Secret-Service") "70c1e4a2b3d4e5f6a7b8c9e0"
                            "Hello again" "Edited" "<p>v2</p>" 2000) blog).1
                ≠ posts blog) by (vm_compute; discriminate).
  exact (only_the_author_updates (H:=Bcrypt_plain) scope_with_secret None _ "70c1e4a2b3d4e5f6a7b8c9e0"
           "Hello again" "Edited" "<p>v2</p>" 2000 blog Hch).
Defined.

(** ** Reading one post *)

Lemma stored_post_present ps p :
  NoDup (Post._id <$> ps) → p ∈ ps → stored_post (Post._id p) ps = Some p.
Proof.
  unfold stored_post. induction ps as [|q ps IH]; simpl.
  - intros _ Hin. by apply elem_of_nil in Hin.
  - rewrite NoDup_cons, elem_of_cons. intros [Hfresh Hnd] [-> | Hin].
    + by rewrite bool_decide_eq_true_2.
    + rewrite bool_decide_eq_false_2; [by apply IH|].
      intros Heq. apply Hfresh. rewrite Heq. by apply list_elem_of_fmap_2.
Qed.

(** X17. When post ids are unique, asking for a stored post by its id, the
    text of an ObjectId, is answered 200 with that post, its author
    populated; the key [password] occurs nowhere in the answer. *)
Theorem get_post_id_finds_stored_post `{Bcrypt} `{Runtime}
    (scope : gmap string string) (w : World) (p : Post.Doc) :
  NoDup (Post._id <$> posts w) → p ∈ posts w →
  is_ObjectId (Post._id p) = true →
  app scope (GET_post_id (Post._id p)) w
  = (w, Normal (mkResponse 200 None
                  (Post.json_with (populate_author (users w) p) p))) ∧
  mentions_key "password" (Post.json_with (populate_author (users w) p) p) = false.
Proof.
  intros Hnd Hin Hid. split.
  - js_unfold. rewrite castObjectId_ObjectId by done. simpl.
    by rewrite stored_post_present.
  - apply populated_json_no_password.
Qed.

Lemma get_post_id_finds_stored_post_witness :
  app (H:=Bcrypt_plain) module_scope (GET_post_id "70c2e4a2b3d4e5f6a7b8c9e1") twins
  = (twins, Normal (mkResponse 200 None
       (Post.json_with
          (JObj [("_id", JStr "64b2f0c2b3d4e5f6a7b8c9d1"); ("username", JStr "bob")])
          bob_post))).
Proof.
  apply (get_post_id_finds_stored_post (H:=Bcrypt_plain) module_scope twins bob_post).
  - apply (bool_decide_unpack _). vm_compute. reflexivity.
  - apply (bool_decide_unpack _). vm_compute. reflexivity.
  - reflexivity.
Defined.

(** X18. With at most twenty posts stored, the listing holds every one of
    them. *)
Theorem listing_holds_all_when_few (w : World) :
  (List.length (posts w) ≤ 20)%nat → listing w ≡ₚ posts w.
Proof.
  intros Hfew. unfold listing, limit.
  rewrite take_ge; [apply sort_createdAt_desc_perm|].
  by rewrite (Permutation_length (sort_createdAt_desc_perm (posts w))).
Qed.

Lemma listing_holds_all_when_few_witness :
  (List.length (posts twins) ≤ 20)%nat ∧ listing twins ≡ₚ posts twins.
Proof.
  assert (Hfew : (List.length (posts twins) ≤ 20)%nat) by (simpl; lia).
  split; [exact Hfew|]. exact (listing_holds_all_when_few twins Hfew).
Defined.

(** ** Uploads *)

Lemma last_part_is_suffix sep name :
  occurs sep (last_part (split sep name)) = false ∧
  (name = last_part (split sep name) ∨
   ∃ base, name = base +:+ String sep (last_part (split sep name))).
Proof.
  induction name as [|c name [Hdot IH]]; simpl.
  - split; [reflexivity | by left].
  - destruct (Ascii.eqb_spec c sep) as [-> | Hne].
    + rewrite last_part_cons by apply split_nonempty. split; [done|].
      right. destruct IH as [IH | (base & IH)].
      * exists "". exact (f_equal (String sep) IH).
      * exists (String sep base). exact (f_equal (String sep) IH).
    + pose proof (split_nonempty sep name) as Hne'.
      destruct (split sep name) as [|piece parts] eqn:Hsplit; [done|].
      destruct parts as [|piece' parts].
      * unfold last_part in *. simpl in *. split.
        -- rewrite Hdot, orb_false_r. by apply Ascii.eqb_neq.
        -- left. destruct IH as [IH | (base & IH)]; [congruence|].
           exfalso. pose proof (split_two_pieces sep base piece) as Hlen.
           rewrite <- IH, Hsplit in Hlen. simpl in Hlen. lia.
      * rewrite last_part_cons by done. rewrite last_part_cons in Hdot, IH by done.
        split; [done|]. right. destruct IH as [IH | (base & IH)].
        -- exfalso. rewrite IH in Hsplit at 1.
           rewrite split_without_separator in Hsplit by done. done.
        -- exists (String c base). exact (f_equal (String c) IH).
Qed.

(** X19. The extension the post handlers append is the part of the original
    name after its last dot, and the whole name when it has no dot; it never
    holds a dot itself. *)
Theorem renamed_path_appends_extension (name path : string) :
  ∃ ext, renamed_path name path = path +:+ "." +:+ ext ∧
         occurs "." ext = false ∧
         ((name = ext) ∨ (∃ base, name = base +:+ "." +:+ ext)).
Proof.
  exists (last_part (split "." name)). split; [reflexivity|].
  apply (last_part_is_suffix "." name).
Qed.

Lemma append_extension_differs s ext : s +:+ "." +:+ ext ≠ s.
Proof.
  induction s as [|c s IH]; simpl; [done|]. intros [= Heq]. by apply IH.
Qed.

(** X20. A request to create or update a post that carries a file which
    the file system lets be renamed leaves that file on disk under its
    renamed path, and no longer under the name multer drew, whatever the
    token and however the handler ends; every other file stays. *)
Theorem upload_is_renamed_whatever_follows `{Bcrypt} `{Runtime} (scope : gmap string string)
    (req : Request) (fp : FilePart) (w : World) :
  (∃ token t s c i now, req = POST_post (Some fp) token t s c i now) ∨
  (∃ token id t s c now, req = PUT_post (Some fp) token id t s c now) →
  rename_refused (renamed fp) = None →
  (renamed fp ∈ files (app scope req w).1) ∧
  (stored_path fp ∉ files (app scope req w).1) ∧
  ∀ other, other ∈ files w → other ≠ stored_path fp →
           other ∈ files (app scope req w).1.
Proof.
  intros Hreq Hgo.
  assert (Hne : renamed fp ≠ stored_path fp) by apply append_extension_differs.
  assert (files (app scope req w).1
          = {[renamed fp]} ∪ ({[stored_path fp]} ∪ files w) ∖ {[stored_path fp]}) as ->.
  { unfold renamed, stored_path in *.
    destruct Hreq as [(token & t & s & c & i & now & ->)
                     | (token & id & t & s & c & now & ->)];
      js_unfold; simpl; rewrite decide_True by apply upload_is_there;
      rewrite Hgo; simpl; repeat js_case; done. }
  clear Hreq Hgo. generalize (renamed fp) (stored_path fp) (files w) Hne. clear.
  intros new stored fs Hne. split_and!.
  - apply elem_of_union_l. by apply elem_of_singleton.
  - rewrite elem_of_union, elem_of_difference, !elem_of_singleton.
    intros [Heq | [_ Hn]]; [congruence | by apply Hn].
  - intros other Hin Hother. apply elem_of_union_r, elem_of_difference.
    split; [by apply elem_of_union_r | by rewrite elem_of_singleton].
Qed.

Lemma upload_is_renamed_whatever_follows_witness :
  rename_refused (renamed (mkPart "cat.photo.png" "5e1f")) = None ∧
  ("uploads/5e1f.png"
   ∈ files (app (H:=Bcrypt_plain) module_scope
              (POST_post (Some (mkPart "cat.photo.png" "5e1f")) None
                 "Cats" "On cats" "<p>Meow</p>" "70c9e4a2b3d4e5f6a7b8c9e2" 3000) blog).1).
Proof.
  split; [reflexivity|].
  refine (proj1 (upload_is_renamed_whatever_follows (H:=Bcrypt_plain) module_scope
                   (POST_post (Some (mkPart "cat.photo.png" "5e1f")) None
                      "Cats" "On cats" "<p>Meow</p>" "70c9e4a2b3d4e5f6a7b8c9e2" 3000)
                   (mkPart "cat.photo.png" "5e1f") blog _ eq_refl)).
  left. exists None, "Cats", "On cats", "<p>Meow</p>", "70c9e4a2b3d4e5f6a7b8c9e2", 3000. reflexivity.
Defined.



(** ** The post handlers in a scope that binds [secret] *)

Lemma stored_post_appended id ps p :
  id ∉ Post._id <$> ps → Post._id p = id →
  stored_post id (ps ++ [p])%list = Some p.
Proof.
  unfold stored_post. intros Hfree Hid. induction ps as [|q ps IH]; simpl.
  - by rewrite bool_decide_eq_true_2.
  - simpl in Hfree. apply not_elem_of_cons in Hfree as [Hne Hfree].
    rewrite bool_decide_eq_false_2 by congruence. auto.
Qed.

Lemma stored_post_updateOne_other id id' change ps :
  id' ≠ id → (∀ p, Post._id (change p) = Post._id p) →
  stored_post id' (updateOne id change ps) = stored_post id' ps.
Proof.
  unfold stored_post. intros Hne Hkeep. induction ps as [|q ps IH]; simpl; [done|].
  case_decide as Hq; simpl.
  - rewrite Hkeep. rewrite !bool_decide_eq_false_2 by congruence. done.
  - by rewrite IH.
Qed.

Opaque JSON_stringify.

Lemma put_post_by_author_world `{Bcrypt} `{Runtime} scope key w part info
    id oid t s c now p :
  scope !! "secret" = Some key → key ≠ "" →
  rename_goes_through part = true →
  castObjectId id = Some oid →
  stored_post oid (posts w) = Some p →
  Post.author p = info_id info →
  posts (app scope (PUT_post part (Some (Signed info key)) id t s c now) w).1
  = updateOne oid (set_fields now t s c (cover_after part p)) (posts w) ∧
  users (app scope (PUT_post part (Some (Signed info key)) id t s c now) w).1
  = users w.
Proof.
  intros Hs Hk Hgo Hcast Hp Hauthor.
  apply stored_post_Some in Hp as Hid. destruct Hid as [_ Hid].
  destruct part as [fp|]; run_upload Hgo; run_with_secret Hs Hk;
    rewrite Hcast; simpl; rewrite Hp; simpl;
    rewrite isAuthor_spec, bool_decide_eq_true_2 by done; simpl;
    by rewrite Hid.
Qed.

Lemma put_post_absent `{Bcrypt} `{Runtime} scope key w part info id oid t s c now :
  scope !! "secret" = Some key → key ≠ "" →
  rename_goes_through part = true →
  castObjectId id = Some oid →
  oid ∉ Post._id <$> posts w →
  (app scope (PUT_post part (Some (Signed info key)) id t s c now) w).2
  = Throw (TypeError "Cannot read properties of null (reading 'author')") ∧
  posts (app scope (PUT_post part (Some (Signed info key)) id t s c now) w).1
  = posts w ∧
  users (app scope (PUT_post part (Some (Signed info key)) id t s c now) w).1
  = users w.
Proof.
  intros Hs Hk Hgo Hcast Habsent.
  destruct part as [fp|]; run_upload Hgo; run_with_secret Hs Hk;
    rewrite Hcast; simpl; by rewrite stored_post_absent.
Qed.

Transparent JSON_stringify.

(** X21. In a scope that binds [secret] to a non-empty key, an update that
    names a stored post by an id that casts, carries no file or one the file
    system lets be renamed, and comes under a token whose id is not the
    post's author, is answered 400 "you are not the author", and the post is
    still stored exactly as it was. *)
Theorem update_by_other_user_is_refused `{Bcrypt} `{Runtime} (scope : gmap string string)
    (key : string) (w : World) (part : option FilePart) (info : TokenInfo)
    (id : string) (oid : ObjectId) (t s c : string) (now : Date) (p : Post.Doc) :
  scope !! "secret" = Some key → key ≠ "" →
  rename_goes_through part = true →
  castObjectId id = Some oid →
  stored_post oid (posts w) = Some p →
  Post.author p ≠ info_id info →
  (app scope (PUT_post part (Some (Signed info key)) id t s c now) w).2
  = Normal (mkResponse 400 None (JStr "you are not the author")) ∧
  stored_post oid
    (posts (app scope (PUT_post part (Some (Signed info key)) id t s c now) w).1)
  = Some p.
Proof.
  intros Hs Hk Hgo Hcast Hp Hother.
  destruct (put_post_rejects_other_author scope key w part info id oid t s c now p)
    as [Hr Hposts]; try done.
  by rewrite Hr, Hposts.
Qed.

Lemma update_by_other_user_is_refused_witness :
  stored_post "70c1e4a2b3d4e5f6a7b8c9e0" (posts blog) = Some alice_post ∧
  (app (H:=Bcrypt_plain) scope_with_secret
     (PUT_post (Some (mkPart "new.jpg" "77aa")) (token_for bob "Secret-Service")
        "70c1e4a2b3d4e5f6a7b8c9e0" "Hijacked" "s" "c" 2000)
     blog).2
  = Normal (mkResponse 400 None (JStr "you are not the author")).
Proof.
  split; [reflexivity|].
  refine (proj1 (update_by_other_user_is_refused (H:=Bcrypt_plain) scope_with_secret
                   "Secret-Service" blog (Some (mkPart "new.jpg" "77aa"))
                   (mkInfo "bob" "64b2f0c2b3d4e5f6a7b8c9d1" 1)
                   "70c1e4a2b3d4e5f6a7b8c9e0" "70c1e4a2b3d4e5f6a7b8c9e0"
                   "Hijacked" "s" "c" 2000 alice_post _ _ _ _ _ _));
    [reflexivity | discriminate | reflexivity | reflexivity | reflexivity
    | discriminate].
Defined.

(** X22. In a scope that binds [secret] to a non-empty key, an update that
    names a stored post by an id that casts, carries no file or one the file
    system lets be renamed, and comes under the author's token, writes
    title, summary and content as supplied, sets the cover to the renamed
    upload if a file came with the request and keeps it otherwise, stamps
    the update time, and keeps id, author and creation time; every other
    post is found as before; the answer is the post as it was loaded, before
    the update. *)
Theorem update_by_author_writes_fields `{Bcrypt} `{Runtime} (scope : gmap string string)
    (key : string) (w : World) (part : option FilePart) (info : TokenInfo)
    (id : string) (oid : ObjectId) (t s c : string) (now : Date) (p : Post.Doc) :
  scope !! "secret" = Some key → key ≠ "" →
  rename_goes_through part = true →
  castObjectId id = Some oid →
  stored_post oid (posts w) = Some p →
  Post.author p = info_id info →
  let after := app scope (PUT_post part (Some (Signed info key)) id t s c now) w in
  after.2 = Normal (mkResponse 200 None (Post.json p)) ∧
  stored_post oid (posts after.1)
  = Some (Post.mk oid t s c
            (match part with
             | Some fp => renamed fp
             | None => Post.cover p
             end)
            (Post.author p) (Post.createdAt p) now) ∧
  ∀ other, other ≠ oid →
           stored_post other (posts after.1) = stored_post other (posts w).
Proof.
  intros Hs Hk Hgo Hcast Hp Hauthor after. subst after.
  destruct (put_post_by_author scope key w part info id oid t s c now p)
    as [Hr Hstored]; try done.
  destruct (put_post_by_author_world scope key w part info id oid t s c now p)
    as [Hposts _]; try done.
  split_and!.
  - exact Hr.
  - rewrite Hstored. by destruct part.
  - intros other Hother. rewrite Hposts.
    by apply stored_post_updateOne_other.
Qed.

Lemma update_by_author_writes_fields_witness :
  stored_post "70c1e4a2b3d4e5f6a7b8c9e0"
    (posts (app (H:=Bcrypt_plain) scope_with_secret
              (PUT_post (Some (mkPart "new.jpg" "77aa"))
                 (token_for alice "Secret-Service") "70c1e4a2b3d4e5f6a7b8c9e0"
                 "Hello again" "Edited" "<p>v2</p>" 2000) blog).1)
  = Some (Post.mk "70c1e4a2b3d4e5f6a7b8c9e0" "Hello again" "Edited" "<p>v2</p>"
            "uploads/77aa.jpg" "64a1f0c2b3d4e5f6a7b8c9d0" 1000 2000).
Proof.
  refine (proj1 (proj2 (update_by_author_writes_fields (H:=Bcrypt_plain)
                          scope_with_secret "Secret-Service" blog
                          (Some (mkPart "new.jpg" "77aa"))
                          (mkInfo "alice" "64a1f0c2b3d4e5f6a7b8c9d0" 1)
                          "70c1e4a2b3d4e5f6a7b8c9e0" "70c1e4a2b3d4e5f6a7b8c9e0"
                          "Hello again" "Edited" "<p>v2</p>" 2000 alice_post
                          _ _ _ _ _ _)));
    [reflexivity | discriminate | reflexivity..].
Defined.

(** X23. In a scope that binds [secret] to a non-empty key, an update under
    a signed token that names, by an id that casts, a post the store does
    not hold, with no file or one the file system lets be renamed, is not
    answered: reading [author] of the null lookup result throws a TypeError,
    and no post or user changes. *)
Theorem update_of_absent_post_faults `{Bcrypt} `{Runtime} (scope : gmap string string)
    (key : string) (w : World) (part : option FilePart) (info : TokenInfo)
    (id : string) (oid : ObjectId) (t s c : string) (now : Date) :
  scope !! "secret" = Some key → key ≠ "" →
  rename_goes_through part = true →
  castObjectId id = Some oid →
  oid ∉ Post._id <$> posts w →
  (app scope (PUT_post part (Some (Signed info key)) id t s c now) w).2
  = Throw (TypeError "Cannot read properties of null (reading 'author')") ∧
  posts (app scope (PUT_post part (Some (Signed info key)) id t s c now) w).1
  = posts w ∧
  users (app scope (PUT_post part (Some (Signed info key)) id t s c now) w).1
  = users w.
Proof. apply put_post_absent. Qed.

Lemma update_of_absent_post_faults_witness :
  (app (H:=Bcrypt_plain) scope_with_secret
     (PUT_post (Some (mkPart "new.jpg" "77aa")) (token_for alice "Secret-Service")
        "000000000000000000000000" "t" "s" "c" 2000) blog).2
  = Throw (TypeError "Cannot read properties of null (reading 'author')").
Proof.
  refine (proj1 (update_of_absent_post_faults (H:=Bcrypt_plain) scope_with_secret
                   "Secret-Service" blog (Some (mkPart "new.jpg" "77aa"))
                   (mkInfo "alice" "64a1f0c2b3d4e5f6a7b8c9d0" 1)
                   "000000000000000000000000" "000000000000000000000000"
                   "t" "s" "c" 2000 _ _ _ _ _)).
  - reflexivity.
  - discriminate.
  - reflexivity.
  - reflexivity.
  - apply (bool_decide_unpack _). vm_compute. reflexivity.
Defined.

(** X24. In a scope that binds [secret] to a non-empty key, a post created
    with an upload the file system lets be renamed, under a fresh ObjectId
    and a token whose id casts, is then found by that id with the title,
    summary and content supplied, the renamed upload as cover, the token's
    id, cast, as author and the request's time as both dates. *)
Theorem create_then_get `{Bcrypt} `{Runtime} (scope : gmap string string) (key : string)
    (w : World) (fp : FilePart) (info : TokenInfo) (author : ObjectId)
    (t s c : string) (new_id : ObjectId) (now : Date) :
  scope !! "secret" = Some key → key ≠ "" →
  rename_refused (renamed fp) = None →
  castObjectId (info_id info) = Some author →
  is_ObjectId new_id = true →
  new_id ∉ Post._id <$> posts w →
  let created :=
    (app scope (POST_post (Some fp) (Some (Signed info key)) t s c new_id now) w).1 in
  let postDoc := Post.mk new_id t s c (renamed fp) author now now in
  app scope (GET_post_id new_id) created
  = (created, Normal (mkResponse 200 None
                        (Post.json_with (populate_author (users w) postDoc) postDoc))).
Proof.
  intros Hs Hk Hgo Hcast Hid Hfresh created postDoc.
  destruct (post_post_creates scope key w fp info author t s c new_id now
              Hs Hk Hgo Hcast Hfresh) as (_ & Hposts & Husers & _).
  change (posts created = (posts w ++ [postDoc])%list) in Hposts.
  change (users created = users w) in Husers.
  clearbody created. js_unfold. rewrite castObjectId_ObjectId by done. simpl.
  rewrite Hposts, Husers. by rewrite stored_post_appended.
Qed.

Lemma create_then_get_witness :
  (app (H:=Bcrypt_plain) scope_with_secret (GET_post_id "70c9e4a2b3d4e5f6a7b8c9e2")
     (app (H:=Bcrypt_plain) scope_with_secret
        (POST_post (Some (mkPart "cat.photo.png" "5e1f"))
           (token_for alice "Secret-Service") "Cats" "On cats" "<p>Meow</p>"
           "70c9e4a2b3d4e5f6a7b8c9e2" 3000) blog).1).2
  = Normal (mkResponse 200 None
      (Post.json_with
         (JObj [("_id", JStr "64a1f0c2b3d4e5f6a7b8c9d0"); ("username", JStr "alice")])
         (Post.mk "70c9e4a2b3d4e5f6a7b8c9e2" "Cats" "On cats" "<p>Meow</p>"
            "uploads/5e1f.png" "64a1f0c2b3d4e5f6a7b8c9d0" 3000 3000))).
Proof.
  assert (Hk : "Secret-Service" ≠ "") by discriminate.
  assert (Hfresh : "70c9e4a2b3d4e5f6a7b8c9e2" ∉ Post._id <$> posts blog)
    by (apply (bool_decide_unpack _); vm_compute; reflexivity).
  exact (f_equal snd
           (create_then_get (H:=Bcrypt_plain) scope_with_secret "Secret-Service"
              blog (mkPart "cat.photo.png" "5e1f")
              (mkInfo "alice" "64a1f0c2b3d4e5f6a7b8c9d0" 1) "64a1f0c2b3d4e5f6a7b8c9d0"
              "Cats" "On cats" "<p>Meow</p>" "70c9e4a2b3d4e5f6a7b8c9e2" 3000
              eq_refl Hk eq_refl eq_refl eq_refl Hfresh)).
Defined.
